(** * PyProf: the record producer (nvtx/nvmarker.py, argMarker) and the
    reduction calculators (prof/reduction.py: Mean, Sum, Norm).

    The producer builds a dictionary describing one call and pushes its
    printed form, [str(cadena)], as a marker; each calculator reads the
    marker back with [eval] and derives elements, bytes and flops. *)

From Stdlib Require Import ZArith List String Ascii Bool Lia DecimalString.
Import ListNotations.
Open Scope string_scope.
Open Scope Z_scope.
Set Warnings "-register-all".

(** ** Python values *)

(** A float is one of the three special values or a finite number
    [m * 2^e]. *)
Inductive pyfloat :=
| FInf
| FNegInf
| FNaN
| FFin (m e : Z).

(** The objects that reach the producer and the values a marker holds.
    Dictionaries are insertion ordered and keyed by strings, as all
    dictionaries of the two files are.  [VTensor size dtype item] is a
    torch tensor: [size] is [arg.size()], [dtype] is [str(arg.dtype)] and
    [item] is what [arg.item()] returns; [VNdarray shape dtype] is a numpy
    array; [VObject n] is any other object, named [n]. *)
Inductive pyval :=
| VInt (z : Z)
| VFloat (f : pyfloat)
| VBool (b : bool)
| VNone
| VStr (s : string)
| VList (l : list pyval)
| VTuple (l : list pyval)
| VDict (d : list (string * pyval))
| VTensor (size : list Z) (dtype : string) (item : pyval)
| VNdarray (shape : list Z) (dtype : string)
| VObject (n : string).

(** ** Exceptions and results *)

Inductive exn :=
| NameError
| KeyError
| TypeError
| IndexError
| AssertionError
| UnknownDtypeError
| Unmodelled.

Inductive result (A : Type) :=
| Ok (a : A)
| Raise (e : exn).
Arguments Ok {A} a.
Arguments Raise {A} e.

Definition bind {A B} (r : result A) (k : A -> result B) : result B :=
  match r with
  | Ok a => k a
  | Raise e => Raise e
  end.

Notation "x <- r ;; k" := (bind r (fun x => k))
  (at level 61, r at next level, right associativity).

(** [assert (b)] *)
Definition assert (b : bool) : result unit :=
  if b then Ok tt else Raise AssertionError.

(** Runs [f] over a list from left to right and stops at the first
    exception. *)
Fixpoint mapM {A B} (f : A -> result B) (l : list A) : result (list B) :=
  match l with
  | [] => Ok []
  | a :: l' => b <- f a ;; bs <- mapM f l' ;; Ok (b :: bs)
  end.

(** [filter] with a predicate that can raise. *)
Fixpoint filterM {A} (p : A -> result bool) (l : list A) : result (list A) :=
  match l with
  | [] => Ok []
  | a :: l' =>
      b <- p a ;; r <- filterM p l' ;; Ok (if b then a :: r else r)
  end.

(** ** Dictionaries and subscripts *)

Fixpoint lookup (k : string) (d : list (string * pyval)) : option pyval :=
  match d with
  | [] => None
  | (k', v) :: d' => if String.eqb k k' then Some v else lookup k d'
  end.

(** [d[k] = v]: an existing key keeps its position. *)
Fixpoint dict_set (k : string) (v : pyval) (d : list (string * pyval))
  : list (string * pyval) :=
  match d with
  | [] => [(k, v)]
  | (k', v') :: d' =>
      if String.eqb k k' then (k, v) :: d' else (k', v') :: dict_set k v d'
  end.

(** [v[k]] for a string [k].  What an object that is not a marker value
    answers is outside the embedding. *)
Definition getitem (v : pyval) (k : string) : result pyval :=
  match v with
  | VDict d => match lookup k d with
               | Some x => Ok x
               | None => Raise KeyError
               end
  | VTensor _ _ _ | VNdarray _ _ | VObject _ => Raise Unmodelled
  | _ => Raise TypeError
  end.

(** [k in v] for a string [k]; the calculators ask it of a value that has
    already answered [v['name']], that is of a dictionary. *)
Definition contains (k : string) (v : pyval) : result bool :=
  match v with
  | VDict d => Ok (match lookup k d with Some _ => true | None => false end)
  | VInt _ | VFloat _ | VBool _ | VNone => Raise TypeError
  | _ => Raise Unmodelled
  end.

Fixpoint chars (s : string) : list pyval :=
  match s with
  | EmptyString => []
  | String c r => VStr (String c EmptyString) :: chars r
  end.

(** The items a [for] loop, [filter] or [list] sees. *)
Definition iter (v : pyval) : result (list pyval) :=
  match v with
  | VList l | VTuple l => Ok l
  | VDict d => Ok (map (fun kv => VStr (fst kv)) d)
  | VStr s => Ok (chars s)
  | VTensor _ _ _ | VNdarray _ _ | VObject _ => Raise Unmodelled
  | _ => Raise TypeError
  end.

(** [len(v)] *)
Definition len (v : pyval) : result Z :=
  match v with
  | VList l | VTuple l => Ok (Z.of_nat (List.length l))
  | VDict d => Ok (Z.of_nat (List.length d))
  | VStr s => Ok (Z.of_nat (String.length s))
  | VTensor _ _ _ | VNdarray _ _ | VObject _ => Raise Unmodelled
  | _ => Raise TypeError
  end.

(** [v[0]] *)
Definition getitem0 (v : pyval) : result pyval :=
  match v with
  | VList l | VTuple l =>
      match l with x :: _ => Ok x | [] => Raise IndexError end
  | VStr s =>
      match chars s with x :: _ => Ok x | [] => Raise IndexError end
  | VDict _ => Raise KeyError
  | VTensor _ _ _ | VNdarray _ _ | VObject _ => Raise Unmodelled
  | _ => Raise TypeError
  end.

(** [v == s] for a string [s]: only a string compares equal to a string. *)
Definition eq_str (v : pyval) (s : string) : bool :=
  match v with
  | VStr s' => String.eqb s' s
  | _ => false
  end.

(** ** Marker text

    A marker travels as text.  The text is represented by the syntax tree
    Python's parser builds from it, over the expression forms a printed
    dictionary is made of: constants (a signed number is one constant),
    names, unary minus and the three displays, a dictionary display
    having string keys.  [EOther] stands for the printed form of an object that is
    not a plain value (a tensor, an array, an instance); what evaluating
    it does is outside the embedding. *)
Inductive const :=
| CInt (z : Z)
| CFloat (m e : Z)
| CBool (b : bool)
| CNone
| CStr (s : string).

Inductive expr :=
| EConst (c : const)
| EName (n : string)
| ENeg (e : expr)
| EList (es : list expr)
| ETuple (es : list expr)
| EDict (kvs : list (string * expr))
| EOther.

(** [repr] inside a printed container; [str] of a dictionary is its
    [repr].  Python prints the special floats as the bare words inf, -inf
    and nan. *)
Fixpoint repr (v : pyval) : expr :=
  match v with
  | VInt z => EConst (CInt z)
  | VFloat FInf => EName "inf"
  | VFloat FNegInf => ENeg (EName "inf")
  | VFloat FNaN => EName "nan"
  | VFloat (FFin m e) => EConst (CFloat m e)
  | VBool b => EConst (CBool b)
  | VNone => EConst CNone
  | VStr s => EConst (CStr s)
  | VList l => EList (map repr l)
  | VTuple l => ETuple (map repr l)
  | VDict d => EDict (map (fun kv => (fst kv, repr (snd kv))) d)
  | VTensor _ _ _ | VNdarray _ _ | VObject _ => EOther
  end.

Definition str (v : pyval) : expr := repr v.

(** The names [eval] finds when it runs inside a constructor of
    reduction.py: the constructor's locals, the module's globals and the
    built-in names. *)
Definition locals : list string := [ "self"; "d" ].

Definition globals : list string :=
  [ "OrderedDict"; "Utility"; "OperatorLayerBase"; "Mean"; "Sum"; "Norm";
    "__name__"; "__doc__"; "__package__"; "__loader__"; "__spec__";
    "__file__"; "__cached__"; "__builtins__" ].

Definition builtins : list string :=
  [ "abs"; "aiter"; "all"; "anext"; "any"; "ascii"; "bin"; "bool";
    "breakpoint"; "bytearray"; "bytes"; "callable"; "chr"; "classmethod";
    "compile"; "complex"; "copyright"; "credits"; "delattr"; "dict"; "dir";
    "divmod"; "enumerate"; "eval"; "exec"; "exit"; "filter"; "float";
    "format"; "frozenset"; "getattr"; "globals"; "hasattr"; "hash"; "help";
    "hex"; "id"; "input"; "int"; "isinstance"; "issubclass"; "iter"; "len";
    "license"; "list"; "locals"; "map"; "max"; "memoryview"; "min"; "next";
    "object"; "oct"; "open"; "ord"; "pow"; "print"; "property"; "quit";
    "range"; "repr"; "reversed"; "round"; "set"; "setattr"; "slice";
    "sorted"; "staticmethod"; "str"; "sum"; "super"; "tuple"; "type";
    "vars"; "zip"; "__import__"; "__build_class__"; "__debug__";
    "Ellipsis"; "NotImplemented";
    "BaseException"; "BaseExceptionGroup"; "Exception"; "ExceptionGroup";
    "GeneratorExit"; "KeyboardInterrupt"; "SystemExit"; "ArithmeticError";
    "AssertionError"; "AttributeError"; "BlockingIOError";
    "BrokenPipeError"; "BufferError"; "BytesWarning"; "ChildProcessError";
    "ConnectionAbortedError"; "ConnectionError"; "ConnectionRefusedError";
    "ConnectionResetError"; "DeprecationWarning"; "EOFError";
    "EncodingWarning"; "EnvironmentError"; "FileExistsError";
    "FileNotFoundError"; "FloatingPointError"; "FutureWarning"; "IOError";
    "ImportError"; "ImportWarning"; "IndentationError"; "IndexError";
    "InterruptedError"; "IsADirectoryError"; "KeyError"; "LookupError";
    "MemoryError"; "ModuleNotFoundError"; "NameError";
    "NotADirectoryError"; "NotImplementedError"; "OSError";
    "OverflowError"; "PendingDeprecationWarning"; "PermissionError";
    "ProcessLookupError"; "RecursionError"; "ReferenceError";
    "ResourceWarning"; "RuntimeError"; "RuntimeWarning";
    "StopAsyncIteration"; "StopIteration"; "SyntaxError"; "SyntaxWarning";
    "SystemError"; "TabError"; "TimeoutError"; "TypeError";
    "UnboundLocalError"; "UnicodeDecodeError"; "UnicodeEncodeError";
    "UnicodeError"; "UnicodeTranslateError"; "UnicodeWarning";
    "UserWarning"; "ValueError"; "Warning"; "ZeroDivisionError" ].

Definition scope : list string := locals ++ globals ++ builtins.

Definition bound (n : string) : bool :=
  existsb (String.eqb n) scope.

(** The value of a name.  [__debug__] is True and, reduction.py having
    no docstring, [__doc__] is None; the other names in scope stand for
    objects; the strings [__name__], [__package__], [__file__] and
    [__cached__] depend on how the module was loaded and are outside the
    embedding.  A name that is not in scope raises NameError. *)
Definition name_value (n : string) : result pyval :=
  if String.eqb n "__debug__" then Ok (VBool true)
  else if String.eqb n "__doc__" then Ok VNone
  else if existsb (String.eqb n)
                  ["__name__"; "__package__"; "__file__"; "__cached__"]
       then Raise Unmodelled
  else if bound n then Ok (VObject n)
  else Raise NameError.

Definition const_val (c : const) : pyval :=
  match c with
  | CInt z => VInt z
  | CFloat m e => VFloat (FFin m e)
  | CBool b => VBool b
  | CNone => VNone
  | CStr s => VStr s
  end.

(** Unary minus. *)
Definition neg (v : pyval) : result pyval :=
  match v with
  | VInt z => Ok (VInt (- z))
  | VBool b => Ok (VInt (- (if b then 1 else 0)))
  | VFloat FInf => Ok (VFloat FNegInf)
  | VFloat FNegInf => Ok (VFloat FInf)
  | VFloat FNaN => Ok (VFloat FNaN)
  | VFloat (FFin m e) => Ok (VFloat (FFin (- m) e))
  | VTensor _ _ _ | VNdarray _ _ | VObject _ => Raise Unmodelled
  | _ => Raise TypeError
  end.

(** Evaluation of an expression, left to right; a display stops at the
    first item that raises. *)
Fixpoint eval_expr (e : expr) : result pyval :=
  match e with
  | EConst c => Ok (const_val c)
  | EName n => name_value n
  | ENeg e' => v <- eval_expr e' ;; neg v
  | EList es =>
      l <- (fix go (es : list expr) : result (list pyval) :=
              match es with
              | [] => Ok []
              | e' :: es' =>
                  v <- eval_expr e' ;; vs <- go es' ;; Ok (v :: vs)
              end) es ;;
      Ok (VList l)
  | ETuple es =>
      l <- (fix go (es : list expr) : result (list pyval) :=
              match es with
              | [] => Ok []
              | e' :: es' =>
                  v <- eval_expr e' ;; vs <- go es' ;; Ok (v :: vs)
              end) es ;;
      Ok (VTuple l)
  | EDict kvs =>
      d <- (fix go (kvs : list (string * expr)) (acc : list (string * pyval))
              : result (list (string * pyval)) :=
              match kvs with
              | [] => Ok acc
              | (k, e') :: kvs' =>
                  v <- eval_expr e' ;; go kvs' (dict_set k v acc)
              end) kvs [] ;;
      Ok (VDict d)
  | EOther => Raise Unmodelled
  end.

(** Whether the text holds the printed form of an object the embedding
    does not evaluate. *)
Fixpoint has_other (e : expr) : bool :=
  match e with
  | EConst _ | EName _ => false
  | ENeg e' => has_other e'
  | EList es | ETuple es => existsb has_other es
  | EDict kvs => existsb (fun kv => has_other (snd kv)) kvs
  | EOther => true
  end.

(** [eval(text)] *)
Definition eval (text : expr) : result pyval :=
  if has_other text then Raise Unmodelled else eval_expr text.

(** ** utility.py *)

(** Modelled from the spec: utility.py is not among the sources.
    [Utility.numElems(shape)] is the product of the dimensions of a shape,
    1 for the empty shape.  A shape is a tuple of integers; anything else
    is a type error. *)
Fixpoint dims_of (l : list pyval) : result (list Z) :=
  match l with
  | [] => Ok []
  | VInt z :: l' => zs <- dims_of l' ;; Ok (z :: zs)
  | _ => Raise TypeError
  end.

Definition product (dims : list Z) : Z := fold_right Z.mul 1 dims.

Definition numElems (shape : pyval) : result Z :=
  match shape with
  | VTuple l => dims <- dims_of l ;; Ok (product dims)
  | _ => Raise TypeError
  end.

(** Modelled from the spec: utility.py is not among the sources.
    [Utility.typeToBytes(t)] looks the dtype name up in the byte-width
    table (4 for 32-bit float, 2 for 16-bit float, 8 for 64-bit integer,
    1 for boolean, under the names torch prints) and raises for a dtype
    the table does not record. *)
Definition typeToBytes (t : pyval) : result Z :=
  match t with
  | VStr s =>
      if String.eqb s "float32" then Ok 4
      else if String.eqb s "float16" then Ok 2
      else if String.eqb s "int64" then Ok 8
      else if String.eqb s "bool" then Ok 1
      else Raise UnknownDtypeError
  | _ => Raise UnknownDtypeError
  end.

(** ** reduction.py *)

(** The row [d] a constructor receives: the marker texts, the direction
    and the nesting level. *)
Module Data.

Record t := {
  argMarker : list expr;
  dir : string;
  sub : Z
}.

End Data.

(** [d.argMarker[0]] *)
Definition argMarker0 (d : Data.t) : result expr :=
  match Data.argMarker d with
  | t :: _ => Ok t
  | [] => Raise IndexError
  end.

(** [mod in ["torch", "Tensor"]] *)
Definition owned_mod (m : pyval) : bool :=
  eq_str m "torch" || eq_str m "Tensor".

(** [lambda x: x['name'] == s] *)
Definition name_is (s : string) (x : pyval) : result bool :=
  n <- getitem x "name" ;; Ok (eq_str n s).

Module Mean.

Record t := {
  marker : pyval;
  mod_ : pyval;
  op_ : pyval;
  args : pyval;
  shape : pyval;
  type : pyval;
  dir : string;
  sub : Z
}.

Definition init (d : Data.t) : result t :=
  text <- argMarker0 d ;;
  marker <- eval text ;;
  m <- getitem marker "mod" ;;
  op <- getitem marker "op" ;;
  args <- getitem marker "args" ;;
  _ <- assert (owned_mod m) ;;
  _ <- assert (eq_str op "mean") ;;
  items <- iter args ;;
  args' <- filterM (name_is "") items ;;
  _ <- assert (Z.of_nat (List.length args') <=? 2) ;;
  i <- getitem0 (VList args') ;;
  has_shape <- contains "shape" i ;;
  if has_shape then
    shape <- getitem i "shape" ;;
    type <- getitem i "dtype" ;;
    Ok (Build_t marker m op args shape type (Data.dir d) (Data.sub d))
  else
    has_value <- contains "value" i ;;
    _ <- assert has_value ;;
    type <- getitem i "type" ;;
    Ok (Build_t marker m op args (VTuple [VInt 1]) type
                (Data.dir d) (Data.sub d)).

Definition params (self : t) : list (string * pyval) :=
  [("T", shape self); ("type", type self)].

Definition tc (self : t) : string := "-".

Definition op (self : t) : pyval := op_ self.

Definition module (self : t) : pyval := mod_ self.

Definition elems (self : t) : result Z := numElems (shape self).

Definition bytes (self : t) : result Z :=
  if sub self =? 0 then
    n <- elems self ;; w <- typeToBytes (type self) ;; Ok (n * w)
  else Ok 0.

Definition flops (self : t) : result Z :=
  if sub self =? 0 then n <- elems self ;; Ok (n + 1)
  else Ok 0.

End Mean.

Module Sum.

Record t := {
  marker : pyval;
  mod_ : pyval;
  op_ : pyval;
  args : pyval;
  shape : pyval;
  type : pyval;
  sub : Z
}.

(** The block under [#Get input]. *)
Definition get_input (args : pyval) : result pyval :=
  a0 <- getitem0 args ;;
  positional <- name_is "" a0 ;;
  if positional then Ok a0
  else
    items <- iter args ;;
    named <- filterM (name_is "input") items ;;
    getitem0 (VList named).

Definition init (d : Data.t) : result t :=
  text <- argMarker0 d ;;
  marker <- eval text ;;
  m <- getitem marker "mod" ;;
  op <- getitem marker "op" ;;
  args <- getitem marker "args" ;;
  _ <- assert (owned_mod m) ;;
  _ <- assert (eq_str op "sum") ;;
  n <- len args ;;
  _ <- assert (1 <=? n) ;;
  i <- get_input args ;;
  shape <- getitem i "shape" ;;
  type <- getitem i "dtype" ;;
  Ok (Build_t marker m op args shape type (Data.sub d)).

Definition params (self : t) : list (string * pyval) :=
  [("T", shape self); ("type", type self)].

Definition tc (self : t) : string := "-".

Definition op (self : t) : pyval := op_ self.

Definition module (self : t) : pyval := mod_ self.

Definition elems (self : t) : result Z := numElems (shape self).

Definition flops (self : t) : result Z := elems self.

Definition bytes (self : t) : result Z :=
  n <- elems self ;;
  w <- typeToBytes (type self) ;;
  let b := n * w in
  if sub self =? 0 then Ok b else Ok 0.

End Sum.

Module Norm.

Record t := {
  marker : pyval;
  mod_ : pyval;
  op_ : pyval;
  args : pyval;
  shape : pyval;
  type : pyval;
  sub : Z
}.

Definition init (d : Data.t) : result t :=
  text <- argMarker0 d ;;
  marker <- eval text ;;
  m <- getitem marker "mod" ;;
  op <- getitem marker "op" ;;
  args <- getitem marker "args" ;;
  _ <- assert (owned_mod m) ;;
  _ <- assert (eq_str op "norm") ;;
  i <- getitem0 args ;;
  shape <- getitem i "shape" ;;
  type <- getitem i "dtype" ;;
  Ok (Build_t marker m op args shape type (Data.sub d)).

Definition params (self : t) : list (string * pyval) :=
  [("T", shape self); ("type", type self)].

Definition elems (self : t) : result Z := numElems (shape self).

Definition bytes (self : t) : result Z :=
  n <- elems self ;;
  w <- typeToBytes (type self) ;;
  let b := n * w in
  if sub self =? 0 then Ok b else Ok 0.

Definition flops (self : t) : result Z :=
  n <- elems self ;;
  let f := 2 * n + 1 in
  if sub self =? 0 then Ok f else Ok 0.

Definition tc (self : t) : string := "-".

Definition op (self : t) : pyval := op_ self.

Definition module (self : t) : pyval := mod_ self.

End Norm.

(** ** nvmarker.py: argMarker *)

Module argMarker.

(** [str(arg.dtype).split(".")[-1]]: what follows the last dot. *)
Fixpoint last_part (s cur : string) : string :=
  match s with
  | EmptyString => cur
  | String c r =>
      if Ascii.eqb c "."%char then last_part r EmptyString
      else last_part r (cur ++ String c EmptyString)
  end.

Definition dims (size : list Z) : pyval := VTuple (map VInt size).

(** Each helper appends one descriptor to [cadena['args']], which is
    threaded through as [acc]. *)
Definition tensor (size : list Z) (dtype : string) (name : string)
           (acc : list pyval) : list pyval :=
  acc ++ [VDict [("name", VStr name); ("type", VStr "tensor");
                 ("shape", dims size);
                 ("dtype", VStr (last_part dtype EmptyString))]].

Definition ndarray (shape : list Z) (dtype : string) (name : string)
           (acc : list pyval) : list pyval :=
  acc ++ [VDict [("name", VStr name); ("type", VStr "ndarray");
                 ("shape", dims shape);
                 ("dtype", VStr (last_part dtype EmptyString))]].

Definition issequence (arg : pyval) : bool :=
  match arg with
  | VList _ | VTuple _ => true
  | _ => false
  end.

(** [seq] is called on sequences only (its first line asserts it); a
    tuple is stored as a tuple. *)
Definition seq (arg : pyval) (name : string) (acc : list pyval)
  : list pyval :=
  match arg with
  | VList _ =>
      acc ++ [VDict [("name", VStr name); ("type", VStr "list");
                     ("value", arg)]]
  | _ =>
      acc ++ [VDict [("name", VStr name); ("type", VStr "tuple");
                     ("value", arg)]]
  end.

(** [type(arg).__name__] of a scalar. *)
Definition type_name (arg : pyval) : string :=
  match arg with
  | VInt _ => "int"
  | VFloat _ => "float"
  | VBool _ => "bool"
  | VNone => "NoneType"
  | VStr _ => "str"
  | VList _ => "list"
  | VTuple _ => "tuple"
  | VDict _ => "dict"
  | VTensor _ _ _ => "Tensor"
  | VNdarray _ _ => "ndarray"
  | VObject n => n
  end.

Definition scalar (arg : pyval) (name : string) (acc : list pyval)
  : list pyval :=
  let value :=
    match arg with
    | VFloat FInf => VStr "inf"
    | VFloat FNegInf => VStr "-inf"
    | VFloat FNaN => VStr "nan"
    | _ => arg
    end in
  acc ++ [VDict [("name", VStr name); ("type", VStr (type_name arg));
                 ("value", value)]].

Definition isscalar (arg : pyval) : bool :=
  match arg with
  | VInt _ | VFloat _ | VBool _ | VNone | VStr _ => true
  | _ => false
  end.

(** [len(arg) == 0 or isscalar(arg[0])] *)
Definition empty_or_scalars (l : list pyval) : bool :=
  match l with
  | [] => true
  | x :: _ => isscalar x
  end.

(** The body of the loop of [foo], for one [arg]; [foo] itself runs it
    over a sequence of arguments. *)
Fixpoint foo_arg (name : string) (arg : pyval) (acc : list pyval)
  {struct arg} : list pyval :=
  match arg with
  | VTensor size dtype item =>
      match size with
      | [] => scalar item name acc
      | _ => tensor size dtype name acc
      end
  | VNdarray shape dtype => ndarray shape dtype name acc
  | VInt _ | VFloat _ | VBool _ | VNone | VStr _ => scalar arg name acc
  | VList l | VTuple l =>
      if empty_or_scalars l then seq arg name acc
      else fold_left (fun acc' a => foo_arg name a acc') l acc
  | _ => acc
  end.

Definition foo (args : list pyval) (name : string) (acc : list pyval)
  : list pyval :=
  fold_left (fun acc' a => foo_arg name a acc') args acc.

(** [cadena] after the positional and the keyword arguments have been
    described. *)
Definition cadena (mod_name op : string) (args : list pyval)
           (kwargs : list (string * pyval)) : pyval :=
  let positional := foo args "" [] in
  let all :=
    fold_left (fun acc kv => foo [snd kv] (fst kv) acc) kwargs positional
  in
  VDict [("mod", VStr mod_name); ("op", VStr op); ("args", VList all)].

Definition argMarker (mod_name op : string) (args : list pyval)
           (kwargs : list (string * pyval)) : expr :=
  str (cadena mod_name op args kwargs).

End argMarker.

(** ** Sample records *)

(** A 32-bit float tensor of shape (4, 8) and a 16-bit float tensor of
    shape (10,). *)
Definition tensor_f32_4x8 : pyval := VTensor [4; 8] "torch.float32" VNone.
Definition tensor_f16_10 : pyval := VTensor [10] "torch.float16" VNone.

(** The row of a call [mod.op(arg)] at nesting level [sub]. *)
Definition row (mod_name op : string) (args : list pyval) (sub : Z)
  : Data.t :=
  Data.Build_t [argMarker.argMarker mod_name op args []] "fprop" sub.

(** A call [torch.sum(dim=1, input=x)]: the first descriptor is named
    dim, the operand is the one named input. *)
Definition sum_by_keyword : Data.t :=
  Data.Build_t
    [argMarker.argMarker "torch" "sum" []
       [("dim", VInt 1); ("input", tensor_f32_4x8)]]
    "fprop" 0.

(** A call [torch.norm(input=x)]: the only descriptor is named input. *)
Definition norm_by_keyword : Data.t :=
  Data.Build_t
    [argMarker.argMarker "torch" "norm" [] [("input", tensor_f16_10)]]
    "fprop" 0.

(** A call [torch.mean(x, [float('inf')])] and the call
    [torch.mean(x, float('inf'))]. *)
Definition mean_with_inf_list : list pyval :=
  [tensor_f32_4x8; VList [VFloat FInf]].

Definition mean_with_inf_scalar : list pyval :=
  [tensor_f32_4x8; VFloat FInf].

(** A call [torch.tensor([float('inf'), 1.0])]. *)
Definition tensor_of_inf : list pyval :=
  [VList [VFloat FInf; VFloat (FFin 1 0)]].

(** [x.sum()] and [x.norm()] for a complex tensor of shape (4, 8), called
    inside another call. *)
Definition nested_complex_sum : Data.t :=
  row "Tensor" "sum" [VTensor [4; 8] "torch.complex64" VNone] 1.

Definition nested_complex_norm : Data.t :=
  row "Tensor" "norm" [VTensor [4; 8] "torch.complex64" VNone] 1.

(** A norm record whose only descriptor has neither a name nor a kind and
    whose dtype is the name OrderedDict, which reduction.py imports. *)
Definition unchecked_norm_text : expr :=
  EDict
    [("mod", EConst (CStr "torch")); ("op", EConst (CStr "norm"));
     ("args",
      EList [EDict [("shape", ETuple [EConst (CInt 10)]);
                    ("dtype", EName "OrderedDict")]])].

Definition unchecked_norm : Data.t :=
  Data.Build_t [unchecked_norm_text] "fprop" 0.

(** ** Readings of the specification *)

(** The word the producer stores for a float that is not finite. *)
Definition special_token (f : pyfloat) : option string :=
  match f with
  | FInf => Some "inf"
  | FNegInf => Some "-inf"
  | FNaN => Some "nan"
  | FFin _ _ => None
  end.

(** What a structured parser reads, in the words of the spec (9):
    constants and displays of constants; a name or an operator is code. *)
Fixpoint literal (e : expr) : bool :=
  match e with
  | EConst _ => true
  | EList es | ETuple es => forallb literal es
  | EDict kvs => forallb (fun kv => literal (snd kv)) kvs
  | EName _ | ENeg _ | EOther => false
  end.

Definition is_str (v : option pyval) : bool :=
  match v with
  | Some (VStr _) => true
  | _ => false
  end.

Definition is_some (v : option pyval) : bool :=
  match v with
  | Some _ => true
  | None => false
  end.

(** The schema of an argument descriptor, in the words of the spec (4.1).
    A descriptor carries a name and a recognized kind, with a shape and a
    dtype for a tensor or an array and a value for a sequence or a
    scalar; the kind of a scalar is the name of its Python type. *)
Definition descriptor_valid (a : pyval) : bool :=
  match a with
  | VDict d =>
      is_str (lookup "name" d) &&
      match lookup "type" d with
      | Some (VStr k) =>
          if String.eqb k "tensor" || String.eqb k "ndarray" then
            is_some (lookup "shape" d) && is_str (lookup "dtype" d)
          else if String.eqb k "list" || String.eqb k "tuple"
                  || String.eqb k "int" || String.eqb k "float"
                  || String.eqb k "bool" || String.eqb k "NoneType"
                  || String.eqb k "str" then
            is_some (lookup "value" d)
          else false
      | _ => false
      end
  | _ => false
  end.

(** The schema of a record, in the words of the spec (4.1): a module, an
    operator and a list of valid descriptors. *)
Definition schema_valid (mk : pyval) : bool :=
  match mk with
  | VDict d =>
      is_str (lookup "mod" d) && is_str (lookup "op" d) &&
      match lookup "args" d with
      | Some (VList l) => forallb descriptor_valid l
      | _ => false
      end
  | _ => false
  end.

(** The reading of C1 that the bytes of every Sum record are 0 at a
    nested level. *)
Definition Sum_bytes_suppressed_when_nested (d : Data.t) : Prop :=
  forall s,
    Sum.init d = Ok s -> Data.sub d <> 0 -> Sum.bytes s = Ok 0.

(** The reading of C4 that the bytes and the flops of every Norm record
    are 0 at a nested level. *)
Definition Norm_suppressed_when_nested (d : Data.t) : Prop :=
  forall s,
    Norm.init d = Ok s -> Data.sub d <> 0 ->
    Norm.bytes s = Ok 0 /\ Norm.flops s = Ok 0.

(** The reading of C2: whenever a constructor accepts a row, its text is
    a literal and the marker read from it satisfies the schema. *)
Definition decoded_by_validating_parser (d : Data.t) : Prop :=
  forall text,
    argMarker0 d = Ok text ->
    (exists s, Mean.init d = Ok s) \/ (exists s, Sum.init d = Ok s)
    \/ (exists s, Norm.init d = Ok s) ->
    literal text = true /\
    exists mk, eval text = Ok mk /\ schema_valid mk = true.

(** The reading of C10 that a Norm record whose first argument is named,
    or has no shape, is never accepted. *)
Definition Norm_rejects_named_or_shapeless (d : Data.t) : Prop :=
  forall text mk a i,
    argMarker0 d = Ok text ->
    eval text = Ok mk ->
    getitem mk "args" = Ok a ->
    getitem0 a = Ok i ->
    name_is "" i = Ok false \/ contains "shape" i = Ok false ->
    forall s, Norm.init d <> Ok s.

(** ** Plain values *)

(** Induction on values that reaches the items of lists, tuples and
    dictionaries. *)
Section pyval_induction.

Variable P : pyval -> Prop.
Hypothesis HInt : forall z, P (VInt z).
Hypothesis HFloat : forall f, P (VFloat f).
Hypothesis HBool : forall b, P (VBool b).
Hypothesis HNone : P VNone.
Hypothesis HStr : forall s, P (VStr s).
Hypothesis HList : forall l, Forall P l -> P (VList l).
Hypothesis HTuple : forall l, Forall P l -> P (VTuple l).
Hypothesis HDict :
  forall d, Forall (fun kv => P (snd kv)) d -> P (VDict d).
Hypothesis HTensor :
  forall size dtype item, P item -> P (VTensor size dtype item).
Hypothesis HNdarray : forall shape dtype, P (VNdarray shape dtype).
Hypothesis HObject : forall n, P (VObject n).

Fixpoint pyval_nested_ind (v : pyval) : P v :=
  match v with
  | VInt z => HInt z
  | VFloat f => HFloat f
  | VBool b => HBool b
  | VNone => HNone
  | VStr s => HStr s
  | VList l =>
      HList l ((fix go (l : list pyval) : Forall P l :=
                  match l with
                  | [] => Forall_nil _
                  | x :: l' => Forall_cons x (pyval_nested_ind x) (go l')
                  end) l)
  | VTuple l =>
      HTuple l ((fix go (l : list pyval) : Forall P l :=
                   match l with
                   | [] => Forall_nil _
                   | x :: l' => Forall_cons x (pyval_nested_ind x) (go l')
                   end) l)
  | VDict d =>
      HDict d ((fix go (d : list (string * pyval))
                  : Forall (fun kv => P (snd kv)) d :=
                  match d with
                  | [] => Forall_nil _
                  | kv :: d' =>
                      Forall_cons kv (pyval_nested_ind (snd kv)) (go d')
                  end) d)
  | VTensor size dtype item =>
      HTensor size dtype item (pyval_nested_ind item)
  | VNdarray shape dtype => HNdarray shape dtype
  | VObject n => HObject n
  end.

End pyval_induction.

(** Whether no two entries of a dictionary share a key. *)
Fixpoint distinct_keys (d : list (string * pyval)) : bool :=
  match d with
  | [] => true
  | (k, _) :: d' =>
      negb (existsb (fun kv => String.eqb k (fst kv)) d') && distinct_keys d'
  end.

(** The values made of integers, finite floats, booleans, None, strings,
    and of lists, tuples and dictionaries of such values. *)
Fixpoint plain (v : pyval) : bool :=
  match v with
  | VInt _ | VBool _ | VNone | VStr _ => true
  | VFloat (FFin _ _) => true
  | VFloat _ => false
  | VList l | VTuple l => forallb plain l
  | VDict d => distinct_keys d && forallb (fun kv => plain (snd kv)) d
  | VTensor _ _ _ | VNdarray _ _ | VObject _ => false
  end.

(** The two loops of [eval_expr], named. *)
Definition eval_items : list expr -> result (list pyval) :=
  fix go (es : list expr) : result (list pyval) :=
    match es with
    | [] => Ok []
    | e' :: es' => v <- eval_expr e' ;; vs <- go es' ;; Ok (v :: vs)
    end.

Definition eval_entries
  : list (string * expr) -> list (string * pyval)
    -> result (list (string * pyval)) :=
  fix go (kvs : list (string * expr)) (acc : list (string * pyval))
    : result (list (string * pyval)) :=
    match kvs with
    | [] => Ok acc
    | (k, e') :: kvs' => v <- eval_expr e' ;; go kvs' (dict_set k v acc)
    end.

(** The arguments whose descriptors hold plain values only: a captured
    sequence of scalars is plain, and a zero-dimensional tensor holds a
    number. *)
Fixpoint capturable (arg : pyval) : bool :=
  match arg with
  | VTensor size _ item =>
      match size with
      | [] => argMarker.isscalar item
      | _ => true
      end
  | VList l | VTuple l =>
      if argMarker.empty_or_scalars l then forallb plain l
      else forallb capturable l
  | _ => true
  end.

(** ** Further sample calls *)

(** [torch.mean(x, 1, True)]: three positional arguments. *)
Definition mean_three_positional : Data.t :=
  row "torch" "mean" [tensor_f32_4x8; VInt 1; VBool true] 0.

(** [torch.mean(input=x)]: no positional argument. *)
Definition mean_by_keyword : Data.t :=
  Data.Build_t
    [argMarker.argMarker "torch" "mean" [] [("input", tensor_f32_4x8)]]
    "fprop" 0.

(** [torch.sum(dim=1)]: a named first argument, none named input. *)
Definition sum_without_input : Data.t :=
  Data.Build_t [argMarker.argMarker "torch" "sum" [] [("dim", VInt 1)]]
    "fprop" 0.

(** ** Predicates on arguments and strings *)

(** The floats that are not finite. *)
Definition special (v : pyval) : bool :=
  match v with
  | VFloat (FFin _ _) => false
  | VFloat _ => true
  | _ => false
  end.

(** Whether a string holds no dot. *)
Fixpoint no_dot (s : string) : bool :=
  match s with
  | EmptyString => true
  | String c r => negb (Ascii.eqb c "."%char) && no_dot r
  end.

(** The descriptors of a record. *)
Definition descriptors (mod_name op : string) (args : list pyval)
           (kwargs : list (string * pyval)) : list pyval :=
  fold_left (fun acc kv => argMarker.foo [snd kv] (fst kv) acc) kwargs
            (argMarker.foo args "" []).

(** A descriptor written under [name]: a dictionary whose name entry is
    [name] and whose type entry is a string. *)
Definition described_as (name : string) (desc : pyval) : Prop :=
  getitem desc "name" = Ok (VStr name) /\
  exists k, getitem desc "type" = Ok (VStr k).

(** ** nvmarker.py: the patches *)

Module nvmarker.

(** What [inspect] tells of an attribute of a module or class.
    [Wrapper orig] is the [wrapper_func] that [add_wrapper] puts in the
    place of [orig]; it is a plain function. *)
Inductive attr :=
| Method
| Function
| MethodDescriptor
| Builtin
| Other
| Wrapper (orig : attr).

Definition ismethod (a : attr) : bool :=
  match a with Method => true | _ => false end.

Definition isfunction (a : attr) : bool :=
  match a with Function | Wrapper _ => true | _ => false end.

Definition ismethoddescriptor (a : attr) : bool :=
  match a with MethodDescriptor => true | _ => false end.

Definition isbuiltin (a : attr) : bool :=
  match a with Builtin => true | _ => false end.

(** A module or class, as its attributes by name. *)
Definition namespace := list (string * attr).

Fixpoint getattr (ns : namespace) (f : string) : option attr :=
  match ns with
  | [] => None
  | (f', a) :: ns' => if String.eqb f f' then Some a else getattr ns' f
  end.

Fixpoint setattr (ns : namespace) (f : string) (a : attr) : namespace :=
  match ns with
  | [] => [(f, a)]
  | (f', a') :: ns' =>
      if String.eqb f f' then (f, a) :: ns' else (f', a') :: setattr ns' f a
  end.

(** [dir(cls)] *)
Definition dir (ns : namespace) : list string := map fst ns.

Definition ignore : list string :=
  [ "__all__"; "__array__"; "__array_priority__"; "__array_wrap__";
    "__bool__"; "__builtins__"; "__cached__"; "__class__"; "__deepcopy__";
    "__delattr__"; "__delitem__"; "__dict__"; "__dir__"; "__doc__";
    "__file__"; "__format__"; "__getattribute__"; "__getitem__"; "__hash__";
    "__index__"; "__init__"; "__init_subclass__"; "__iter__"; "__len__";
    "__loader__"; "__module__"; "__name__"; "__new__"; "__nonzero__";
    "__package__"; "__path__"; "__reduce__"; "__reduce_ex__"; "__repr__";
    "__reversed__"; "__setattr__"; "__setitem__"; "__setstate__";
    "__sizeof__"; "__spec__"; "__str__"; "__subclasshook__"; "__version__";
    "__weakref__";
    "size"; "tolist"; "dim"; "is_storage"; "item" ].

(** [len(f) >= 2 and f[0] == "_" and f[1] != "_"] *)
Definition underscored (f : string) : bool :=
  match f with
  | String a (String b _) =>
      Ascii.eqb a "_"%char && negb (Ascii.eqb b "_"%char)
  | _ => false
  end.

Definition isfunc (mod_ : namespace) (f : string) : result bool :=
  match getattr mod_ f with
  | None => Raise AssertionError
  | Some attr =>
      if underscored f then Ok false
      else if existsb (String.eqb f) ignore then Ok false
      else Ok (ismethod attr || isfunction attr
               || ismethoddescriptor attr || isbuiltin attr)
  end.

(** [add_wrapper], as far as the module is concerned: the attribute is
    replaced by its wrapper.  The last branch is not reached: [isfunc]
    has asserted that the attribute exists. *)
Definition add_wrapper (mod_ : namespace) (fn_name : string)
  : result namespace :=
  b <- isfunc mod_ fn_name ;;
  _ <- assert b ;;
  match getattr mod_ fn_name with
  | Some func => Ok (setattr mod_ fn_name (Wrapper func))
  | None => Raise AssertionError
  end.

Definition patchClass (cls : namespace) : result namespace :=
  fold_left
    (fun acc f =>
       cls' <- acc ;;
       b <- isfunc cls' f ;;
       if b then add_wrapper cls' f else Ok cls')
    (dir cls) (Ok cls).

(** *** Trace and module markers *)

(** An entry of [traceback.extract_stack()]. *)
Record FrameSummary := {
  filename : string;
  lineno : Z
}.

(** ["{}:{}".format(fi.filename, fi.lineno)] *)
Definition format_frame (fi : FrameSummary) : string :=
  filename fi ++ ":" ++ NilZero.string_of_int (Z.to_int (lineno fi)).

(** [stack] is what [traceback.extract_stack()] returns inside
    [get_trace_marker]: the oldest call first. *)
Definition get_trace_marker (stack : list FrameSummary) : list string :=
  map (fun i => format_frame (nth i stack (Build_FrameSummary "" 0)))
      (seq 0 (List.length stack - 3)).

Definition traceMarker (stack : list FrameSummary) : expr :=
  str (VDict [("traceMarker", VList (map VStr (get_trace_marker stack)))]).

(** An entry of [inspect.stack()]: the name of the function and, when
    the frame has a local [self], the name of its class. *)
Record FrameInfo := {
  co_name : string;
  self_class : option string
}.

Definition skipped_frames : list string :=
  [ "__call__"; "wrapper_func"; "<module>" ].

(** [ins_stack] is what [inspect.stack()] returns inside
    [get_func_stack]: the newest call first. *)
Definition get_func_stack (ins_stack : list FrameInfo) : string :=
  fold_left
    (fun func_stack frame =>
       if existsb (String.eqb (co_name frame)) skipped_frames then func_stack
       else
         let frame_info :=
           match self_class frame with
           | Some cls_name => cls_name ++ "::"
           | None => ""
           end ++ co_name frame in
         "/" ++ frame_info ++ func_stack)
    (skipn 3 ins_stack) "".

(** [modMarker]; [extra_repr] is the method of that name of a torch.nn
    module. *)
Definition modMarker (extra_repr : pyval -> string)
           (mod_name fn_name : string) (args : list pyval) : result expr :=
  _ <- assert (String.eqb fn_name "forward") ;;
  _ <- assert (0 <? Z.of_nat (List.length args)) ;;
  match args with
  | a0 :: _ =>
      Ok (str (VDict [("mod", VStr mod_name);
                      ("strRepr", VStr (extra_repr a0))]))
  | [] => Raise IndexError
  end.

(** *** NVTX ranges *)

(** A message is the printed form of a dictionary or, for the model
    configuration, the JSON text of one. *)
Inductive message :=
| Text (e : expr)
| Json (v : pyval).

(** The ranges that are open, the innermost first. *)
Definition ranges := list message.

Definition range_push (m : message) (st : ranges) : ranges := m :: st.

(** Ending a range when none is open leaves none open. *)
Definition range_pop (st : ranges) : ranges := tl st.

(** A patched function: it is given the call and the open ranges, and
    returns or raises, leaving ranges open. *)
Definition callee :=
  list pyval -> list (string * pyval) -> ranges -> result pyval * ranges.

(** [wrapper_func] of [add_wrapper]; [s] tells whether the module has a
    string representation and [stack] is the call stack at the call. *)
Definition wrapper_func (func : callee) (extra_repr : pyval -> string)
           (s : bool) (mod_name fn_name : string)
           (stack : list FrameSummary) : callee :=
  fun args kwargs st =>
    let st := range_push (Text (traceMarker stack)) st in
    match (if s then
             m <- modMarker extra_repr mod_name fn_name args ;;
             Ok (range_push (Text m) st)
           else Ok st) with
    | Raise e => (Raise e, st)
    | Ok st =>
        let cadena := argMarker.argMarker mod_name fn_name args kwargs in
        let st := range_push (Text cadena) st in
        match func args kwargs st with
        | (Raise e, st) => (Raise e, st)
        | (Ok result, st) =>
            let st := range_pop st in
            let st := if s then range_pop st else st in
            let st := range_pop st in
            (Ok result, st)
        end
    end.

Definition push_nvtx_model_config (config : pyval) (st : ranges) : ranges :=
  range_push (Json (VDict [("model_config", config)])) st.

(** [always_benchmark_wrapper]: [benchmark] is
    [torch.backends.cudnn.benchmark] at the call and [reported] the flag
    [cudnn_benchmark_disabled_reported], which only this wrapper
    writes. *)
Definition always_benchmark_wrapper (old_fn : callee) (benchmark : bool)
           (args : list pyval) (kwargs : list (string * pyval))
           (reported : bool) (st : ranges)
  : result pyval * (bool * ranges) :=
  let add_nvtx := negb benchmark && negb reported in
  let reported := if add_nvtx then true else reported in
  let st :=
    if add_nvtx then
      push_nvtx_model_config
        (VDict [("cudnn_benchmark_disabled", VBool true)]) st
    else st in
  match old_fn args kwargs st with
  | (Raise e, st) => (Raise e, (reported, st))
  | (Ok result, st) =>
      (Ok result, (reported, if add_nvtx then range_pop st else st))
  end.

(** *** The data loader *)

(** What the generator [new_iter] does, in order. *)
Inductive event :=
| Push (m : message)
| Pop
| Yield (x : pyval).

(** The body of the loop of [new_iter], for the items [old_iter] yields;
    [stacks k] is the call stack at the k-th call of [traceMarker]. *)
Fixpoint new_iter_loop (stacks : nat -> list FrameSummary) (cadena : expr)
         (k : nat) (items : list pyval) : list event :=
  match items with
  | [] => []
  | x :: items' =>
      [Pop; Pop; Yield x;
       Push (Text (traceMarker (stacks (S k)))); Push (Text cadena)]
      ++ new_iter_loop stacks cadena (S k) items'
  end%list.

Definition new_iter (stacks : nat -> list FrameSummary)
           (args : list pyval) (kwargs : list (string * pyval))
           (items : list pyval) : list event :=
  let cadena :=
    argMarker.argMarker "torch.utils.data.dataloader" "DataLoader"
                        args kwargs in
  ([Push (Text (traceMarker (stacks 0%nat))); Push (Text cadena)]
   ++ new_iter_loop stacks cadena 0 items
   ++ [Pop; Pop])%list.

(** The open ranges as the events happen: the ranges seen at each
    [yield], and those left at the end. *)
Fixpoint replay (events : list event) (st : ranges)
  : list (pyval * ranges) * ranges :=
  match events with
  | [] => ([], st)
  | Push m :: events' => replay events' (range_push m st)
  | Pop :: events' => replay events' (range_pop st)
  | Yield x :: events' =>
      let (seen, final) := replay events' st in ((x, st) :: seen, final)
  end.

End nvmarker.

(** ** What the patches are checked against *)

(** The attributes [inspect] takes for callable. *)
Definition callable (a : nvmarker.attr) : bool :=
  nvmarker.ismethod a || nvmarker.isfunction a
  || nvmarker.ismethoddescriptor a || nvmarker.isbuiltin a.

(** The attributes a patch wraps: callable, with a name that is not an
    underscore followed by another character (the name made of one
    underscore alone is not excluded) and is not in the list of ignored
    names. *)
Definition wrappable (f : string) (a : nvmarker.attr) : bool :=
  negb (nvmarker.underscored f)
  && negb (existsb (String.eqb f) nvmarker.ignore)
  && callable a.

Definition wrap (fa : string * nvmarker.attr) : string * nvmarker.attr :=
  (fst fa, if wrappable (fst fa) (snd fa) then nvmarker.Wrapper (snd fa)
           else snd fa).

(** A call of a patched convolution: the value of
    [torch.backends.cudnn.benchmark] and the arguments. *)
Definition conv_call : Type := bool * (list pyval * list (string * pyval)).

(** Successive calls of [always_benchmark_wrapper]: for each call, the
    flag before and after it. *)
Fixpoint session (old_fn : nvmarker.callee) (calls : list conv_call)
         (reported : bool) (st : nvmarker.ranges) : list (bool * bool) :=
  match calls with
  | [] => []
  | (benchmark, (args, kwargs)) :: calls' =>
      let '(_, (reported', st')) :=
        nvmarker.always_benchmark_wrapper old_fn benchmark args kwargs
                                          reported st in
      (reported, reported') :: session old_fn calls' reported' st'
  end.

(** A call in which the flag goes from unset to set. *)
Definition reports (flags : bool * bool) : bool :=
  negb (fst flags) && snd flags.

(** The message of the model configuration [key: True]. *)
Definition config_message (key : string) : nvmarker.message :=
  nvmarker.Json (VDict [("model_config", VDict [(key, VBool true)])]).

(** What [get_func_stack] writes for a frame, and the frames it shows. *)
Definition frame_info (frame : nvmarker.FrameInfo) : string :=
  "/" ++ match nvmarker.self_class frame with
         | Some cls_name => cls_name ++ "::"
         | None => ""
         end ++ nvmarker.co_name frame.

Definition shown (frame : nvmarker.FrameInfo) : bool :=
  negb (existsb (String.eqb (nvmarker.co_name frame)) nvmarker.skipped_frames).

Definition join (l : list string) : string := fold_right append "" l.

(** ** Proof support *)

(** Splits a hypothesis [c = Ok s], where [c] is a chain of binds, into
    one equation for each step. *)
Ltac unbind H :=
  repeat match type of H with
    | bind ?r _ = Ok _ =>
        let E := fresh "E" in
        destruct r eqn:E; cbn [bind] in H; [ | discriminate H ]
    | (if ?b then _ else _) = Ok _ =>
        let E := fresh "E" in destruct b eqn:E
    end.

Lemma dims_of_ints (dims : list Z) : dims_of (map VInt dims) = Ok dims.
Proof.
  induction dims as [ | z dims IH]; cbn; [ reflexivity | ].
  rewrite IH. reflexivity.
Qed.

Lemma numElems_tuple (dims : list Z) :
  numElems (VTuple (map VInt dims)) = Ok (product dims).
Proof. cbn. rewrite dims_of_ints. reflexivity. Qed.

Lemma Mean_sub (d : Data.t) (s : Mean.t) :
  Mean.init d = Ok s -> Mean.sub s = Data.sub d.
Proof.
  unfold Mean.init. intros H. unbind H.
  - unbind H. injection H as <-. reflexivity.
  - unbind H. injection H as <-. reflexivity.
Qed.

Lemma Sum_sub (d : Data.t) (s : Sum.t) :
  Sum.init d = Ok s -> Sum.sub s = Data.sub d.
Proof.
  unfold Sum.init. intros H. unbind H. injection H as <-. reflexivity.
Qed.

Lemma Norm_sub (d : Data.t) (s : Norm.t) :
  Norm.init d = Ok s -> Norm.sub s = Data.sub d.
Proof.
  unfold Norm.init. intros H. unbind H. injection H as <-. reflexivity.
Qed.

(** ** The metrics of the three calculators *)

(** C1, as stated, fails: the record of [x.sum()] for a complex tensor at
    nesting level 1 is accepted, and its bytes are not 0: the width of
    the dtype is looked up before the level is tested, and the lookup
    raises. *)
Lemma Sum_bytes_raise_when_nested :
  ~ Sum_bytes_suppressed_when_nested nested_complex_sum.
Proof.
  intros H.
  assert (Hsub : Data.sub nested_complex_sum <> 0) by discriminate.
  pose proof (H _ eq_refl Hsub) as Hb. discriminate Hb.
Qed.

(** C1, amended.  A Sum calculator whose shape is a tuple of integers
    reports the product of the shape as flops at every nesting level;
    when its dtype has a byte width, its bytes are the element count
    times the width at level 0 and 0 at every other level. *)
Theorem Sum_flops_kept_bytes_suppressed
  (d : Data.t) (s : Sum.t) (dims : list Z)
  (Hinit : Sum.init d = Ok s)
  (Hshape : Sum.shape s = VTuple (map VInt dims)) :
  Sum.elems s = Ok (product dims) /\
  Sum.flops s = Ok (product dims) /\
  forall w, typeToBytes (Sum.type s) = Ok w ->
    (Data.sub d <> 0 -> Sum.bytes s = Ok 0) /\
    (Data.sub d = 0 -> Sum.bytes s = Ok (product dims * w)).
Proof.
  pose proof (Sum_sub d s Hinit) as Hsub.
  unfold Sum.flops, Sum.bytes, Sum.elems.
  rewrite Hshape, numElems_tuple, Hsub.
  split; [ reflexivity | split; [ reflexivity | ] ].
  intros w Hwidth. rewrite Hwidth. cbn [bind]. split; intros H.
  - apply Z.eqb_neq in H. rewrite H. reflexivity.
  - rewrite H. reflexivity.
Qed.

(** The Sum record of the spec: a 32-bit float tensor of shape (4, 8) at
    nesting level 1 has 32 elements, 0 bytes and 32 flops. *)
Lemma Sum_flops_kept_bytes_suppressed_witness :
  exists s,
    Sum.init (row "torch" "sum" [tensor_f32_4x8] 1) = Ok s /\
    Sum.elems s = Ok 32 /\ Sum.flops s = Ok 32 /\ Sum.bytes s = Ok 0.
Proof.
  eexists. split; [ reflexivity | ].
  destruct (Sum_flops_kept_bytes_suppressed
              (row "torch" "sum" [tensor_f32_4x8] 1) _ [4; 8]
              eq_refl eq_refl) as (He & Hf & Hb).
  destruct (Hb 4 eq_refl) as [Hsup _].
  split; [ exact He | split; [ exact Hf | apply Hsup; discriminate ] ].
Defined.

(** C3.  A Mean calculator at nesting level 0 reports one flop more than
    its element count and the element count times the byte width as
    bytes; at every other level it reports 0 for both. *)
Theorem Mean_metrics
  (d : Data.t) (s : Mean.t) (Hinit : Mean.init d = Ok s) :
  (Data.sub d <> 0 -> Mean.bytes s = Ok 0 /\ Mean.flops s = Ok 0) /\
  (Data.sub d = 0 ->
   forall dims, Mean.shape s = VTuple (map VInt dims) ->
     Mean.elems s = Ok (product dims) /\
     Mean.flops s = Ok (product dims + 1) /\
     forall w, typeToBytes (Mean.type s) = Ok w ->
       Mean.bytes s = Ok (product dims * w)).
Proof.
  pose proof (Mean_sub d s Hinit) as Hsub.
  unfold Mean.flops, Mean.bytes, Mean.elems. rewrite Hsub. split.
  - intros H. apply Z.eqb_neq in H. rewrite H. split; reflexivity.
  - intros H dims Hshape. rewrite H, Hshape, numElems_tuple. cbn.
    repeat split. intros w Hw. rewrite Hw. reflexivity.
Qed.

(** The Mean record of the spec: a 32-bit float tensor of shape (4, 8) at
    nesting level 0 has 32 elements, 128 bytes and 33 flops. *)
Lemma Mean_metrics_witness :
  exists s,
    Mean.init (row "torch" "mean" [tensor_f32_4x8] 0) = Ok s /\
    Mean.elems s = Ok 32 /\ Mean.bytes s = Ok 128 /\ Mean.flops s = Ok 33.
Proof.
  eexists. split; [ reflexivity | ].
  destruct (Mean_metrics (row "torch" "mean" [tensor_f32_4x8] 0) _ eq_refl)
    as [_ H].
  destruct (H eq_refl [4; 8] eq_refl) as (He & Hf & Hb).
  split; [ exact He | split; [ exact (Hb 4 eq_refl) | exact Hf ] ].
Defined.

(** C4, as stated, fails: the record of [x.norm()] for a complex tensor
    at nesting level 1 is accepted, and its bytes are not 0: the width of
    the dtype is looked up before the level is tested, and the lookup
    raises. *)
Lemma Norm_bytes_raise_when_nested :
  ~ Norm_suppressed_when_nested nested_complex_norm.
Proof.
  intros H.
  assert (Hsub : Data.sub nested_complex_norm <> 0) by discriminate.
  destruct (H _ eq_refl Hsub) as [Hb _]. discriminate Hb.
Qed.

(** C4, amended.  A Norm calculator whose shape is a tuple of integers
    reports twice its element count plus one as flops at nesting level 0
    and 0 at every other level; when its dtype has a byte width, its
    bytes are the element count times the width at level 0 and 0 at
    every other level. *)
Theorem Norm_metrics
  (d : Data.t) (s : Norm.t) (dims : list Z)
  (Hinit : Norm.init d = Ok s)
  (Hshape : Norm.shape s = VTuple (map VInt dims)) :
  Norm.elems s = Ok (product dims) /\
  (Data.sub d = 0 -> Norm.flops s = Ok (2 * product dims + 1)) /\
  (Data.sub d <> 0 -> Norm.flops s = Ok 0) /\
  forall w, typeToBytes (Norm.type s) = Ok w ->
    (Data.sub d = 0 -> Norm.bytes s = Ok (product dims * w)) /\
    (Data.sub d <> 0 -> Norm.bytes s = Ok 0).
Proof.
  pose proof (Norm_sub d s Hinit) as Hsub.
  unfold Norm.flops, Norm.bytes, Norm.elems.
  rewrite Hshape, numElems_tuple, Hsub. cbn [bind].
  split; [ reflexivity | ]. split; [ | split ].
  - intros H. rewrite H. reflexivity.
  - intros H. apply Z.eqb_neq in H. rewrite H. reflexivity.
  - intros w Hwidth. rewrite Hwidth. cbn [bind]. split; intros H.
    + rewrite H. reflexivity.
    + apply Z.eqb_neq in H. rewrite H. reflexivity.
Qed.

(** The Norm record of the spec: a 16-bit float tensor of shape (10,) at
    nesting level 0 has 10 elements, 20 bytes and 21 flops. *)
Lemma Norm_metrics_witness :
  exists s,
    Norm.init (row "torch" "norm" [tensor_f16_10] 0) = Ok s /\
    Norm.elems s = Ok 10 /\ Norm.bytes s = Ok 20 /\ Norm.flops s = Ok 21.
Proof.
  eexists. split; [ reflexivity | ].
  destruct (Norm_metrics (row "torch" "norm" [tensor_f16_10] 0) _ [10]
              eq_refl eq_refl) as (He & Hf & _ & Hb).
  destruct (Hb 2 eq_refl) as [Hb0 _].
  split; [ exact He | split; [ exact (Hb0 eq_refl) | exact (Hf eq_refl) ] ].
Defined.

(** ** Construction: module and operator checks *)

(** C5.  Once the record has been decoded into a marker with a module, an
    operator and arguments, each constructor raises AssertionError when
    the module is neither torch nor Tensor or the operator is not its
    own, and so produces no metrics. *)
Theorem mismatch_is_contract_violation
  (d : Data.t) (text : expr) (mk m o a : pyval)
  (Htext : argMarker0 d = Ok text)
  (Heval : eval text = Ok mk)
  (Hmod : getitem mk "mod" = Ok m)
  (Hop : getitem mk "op" = Ok o)
  (Hargs : getitem mk "args" = Ok a) :
  (owned_mod m = false \/ eq_str o "mean" = false ->
   Mean.init d = Raise AssertionError) /\
  (owned_mod m = false \/ eq_str o "sum" = false ->
   Sum.init d = Raise AssertionError) /\
  (owned_mod m = false \/ eq_str o "norm" = false ->
   Norm.init d = Raise AssertionError).
Proof.
  unfold Mean.init, Sum.init, Norm.init.
  rewrite Htext; cbn [bind]. rewrite Heval; cbn [bind].
  rewrite Hmod, Hop, Hargs; cbn [bind].
  repeat split; intros [H | H]; rewrite H; cbn;
    try reflexivity; destruct (owned_mod m); reflexivity.
Qed.

(** Building the Mean calculator from a record whose operator is sum
    fails. *)
Lemma mismatch_is_contract_violation_witness :
  Mean.init (row "torch" "sum" [tensor_f32_4x8] 0) = Raise AssertionError.
Proof.
  refine (proj1 (mismatch_is_contract_violation
                   (row "torch" "sum" [tensor_f32_4x8] 0) _ _ _ _ _
                   eq_refl eq_refl eq_refl eq_refl eq_refl) _).
  right. reflexivity.
Defined.

(** ** Operand selection *)

(** The first item of [l] that is named [s], when every item before it
    carries another name and every item after it carries some name. *)
Lemma filterM_first (s : string) (pre post : list pyval) (i : pyval) :
  Forall (fun x => name_is s x = Ok false) pre ->
  name_is s i = Ok true ->
  Forall (fun x => exists b, name_is s x = Ok b) post ->
  exists others, filterM (name_is s) (pre ++ i :: post)%list = Ok (i :: others).
Proof.
  intros Hpre Hi Hpost.
  assert (Hp : exists r, filterM (name_is s) post = Ok r).
  { induction Hpost as [ | x post [b Hx] _ [r IH]]; cbn.
    - eexists; reflexivity.
    - rewrite Hx, IH. cbn. eexists; reflexivity. }
  destruct Hp as [r Hr].
  induction Hpre as [ | x pre Hx _ IH]; cbn.
  - rewrite Hi, Hr. cbn. eexists; reflexivity.
  - rewrite Hx. cbn [bind]. destruct IH as [others IH]. rewrite IH.
    cbn. eexists; reflexivity.
Qed.

(** C7.  For a Sum record with at least one argument: a positional first
    argument is the operand; otherwise the first argument named input is.
    The calculator takes its shape and dtype from that operand, and
    elements and bytes are computed from them. *)
Theorem Sum_operand_selection
  (d : Data.t) (text : expr) (mk m o a a0 : pyval) (rest : list pyval)
  (Htext : argMarker0 d = Ok text)
  (Heval : eval text = Ok mk)
  (Hmod : getitem mk "mod" = Ok m)
  (Hop : getitem mk "op" = Ok o)
  (Hargs : getitem mk "args" = Ok a)
  (Howned : owned_mod m = true)
  (Hsum : eq_str o "sum" = true)
  (Hseq : a = VList (a0 :: rest) \/ a = VTuple (a0 :: rest)) :
  (name_is "" a0 = Ok true -> Sum.get_input a = Ok a0) /\
  (name_is "" a0 = Ok false ->
   forall pre i post,
     a0 :: rest = (pre ++ i :: post)%list ->
     Forall (fun x => name_is "input" x = Ok false) pre ->
     name_is "input" i = Ok true ->
     Forall (fun x => exists b, name_is "input" x = Ok b) post ->
     Sum.get_input a = Ok i) /\
  (forall i sh ty,
     Sum.get_input a = Ok i ->
     getitem i "shape" = Ok sh ->
     getitem i "dtype" = Ok ty ->
     exists s,
       Sum.init d = Ok s /\ Sum.shape s = sh /\ Sum.type s = ty /\
       Sum.elems s = numElems sh /\
       Sum.bytes s =
         (n <- numElems sh ;; w <- typeToBytes ty ;;
          Ok (if Data.sub d =? 0 then n * w else 0))).
Proof.
  assert (H0 : getitem0 a = Ok a0) by (destruct Hseq; subst a; reflexivity).
  assert (Hit : iter a = Ok (a0 :: rest))
    by (destruct Hseq; subst a; reflexivity).
  assert (Hlen : exists n, len a = Ok n /\ (1 <=? n) = true).
  { exists (Z.of_nat (List.length (a0 :: rest))).
    split; [ destruct Hseq; subst a; reflexivity | ].
    apply Z.leb_le. cbn [List.length]. lia. }
  split; [ | split ].
  - intros Hpos. unfold Sum.get_input. rewrite H0. cbn [bind].
    rewrite Hpos. reflexivity.
  - intros Hnamed pre i post Hsplit Hpre Hi Hpost.
    unfold Sum.get_input. rewrite H0. cbn [bind].
    rewrite Hnamed. cbn [bind]. rewrite Hit. cbn [bind]. rewrite Hsplit.
    destruct (filterM_first "input" pre post i Hpre Hi Hpost) as [others E].
    rewrite E. reflexivity.
  - intros i sh ty Hin Hsh Hty. destruct Hlen as (n & Hn & Hle).
    eexists. unfold Sum.init.
    rewrite Htext; cbn [bind]. rewrite Heval; cbn [bind].
    rewrite Hmod, Hop, Hargs; cbn [bind].
    rewrite Howned, Hsum; cbn [assert bind].
    rewrite Hn; cbn [bind]. rewrite Hle; cbn [assert bind].
    rewrite Hin; cbn [bind]. rewrite Hsh, Hty; cbn [bind].
    split; [ reflexivity | ].
    unfold Sum.bytes, Sum.elems. cbn.
    repeat split.
    destruct (numElems sh); cbn; [ | reflexivity ].
    destruct (typeToBytes ty); cbn; [ | reflexivity ].
    destruct (Data.sub d =? 0); reflexivity.
Qed.

Lemma Sum_operand_selection_witness :
  exists s,
    Sum.init sum_by_keyword = Ok s /\
    Sum.shape s = VTuple [VInt 4; VInt 8] /\
    Sum.type s = VStr "float32".
Proof.
  destruct (Sum_operand_selection sum_by_keyword _ _ _ _ _ _ _
              eq_refl eq_refl eq_refl eq_refl eq_refl eq_refl eq_refl
              (or_introl eq_refl)) as (_ & Hnamed & Hinit).
  assert (Hin : Sum.get_input
                  (VList
                     [VDict [("name", VStr "dim"); ("type", VStr "int");
                             ("value", VInt 1)];
                      VDict [("name", VStr "input");
                             ("type", VStr "tensor");
                             ("shape", VTuple [VInt 4; VInt 8]);
                             ("dtype", VStr "float32")]])
                = Ok (VDict [("name", VStr "input");
                             ("type", VStr "tensor");
                             ("shape", VTuple [VInt 4; VInt 8]);
                             ("dtype", VStr "float32")])).
  { apply (Hnamed eq_refl
             [VDict [("name", VStr "dim"); ("type", VStr "int");
                     ("value", VInt 1)]] _ []).
    - reflexivity.
    - constructor; [ reflexivity | constructor ].
    - reflexivity.
    - constructor. }
  destruct (Hinit _ _ _ Hin eq_refl eq_refl) as (s & Hs & Hsh & Hty & _).
  exists s. split; [ exact Hs | split; [ exact Hsh | exact Hty ] ].
Defined.

(** The scalar branch of [Mean.__init__]. *)
Lemma Mean_init_scalar
  (d : Data.t) (text : expr) (mk m o a i ty : pyval)
  (items rest : list pyval) :
  argMarker0 d = Ok text ->
  eval text = Ok mk ->
  getitem mk "mod" = Ok m ->
  getitem mk "op" = Ok o ->
  getitem mk "args" = Ok a ->
  owned_mod m = true ->
  eq_str o "mean" = true ->
  iter a = Ok items ->
  filterM (name_is "") items = Ok (i :: rest) ->
  (List.length rest <= 1)%nat ->
  contains "shape" i = Ok false ->
  contains "value" i = Ok true ->
  getitem i "type" = Ok ty ->
  Mean.init d
  = Ok (Mean.Build_t mk m o a (VTuple [VInt 1]) ty (Data.dir d) (Data.sub d)).
Proof.
  intros Htext Heval Hmod Hop Hargs Howned Hmean Hiter Hpos Hlen
         Hshape Hvalue Htype.
  unfold Mean.init.
  rewrite Htext; cbn [bind]. rewrite Heval; cbn [bind].
  rewrite Hmod, Hop, Hargs; cbn [bind].
  rewrite Howned, Hmean; cbn [assert bind].
  rewrite Hiter; cbn [bind]. rewrite Hpos; cbn [bind].
  replace (Z.of_nat (List.length (i :: rest)) <=? 2) with true
    by (symmetry; apply Z.leb_le; cbn [List.length]; lia).
  cbn [assert bind getitem0]. rewrite Hshape; cbn [bind].
  rewrite Hvalue; cbn [assert bind]. rewrite Htype; reflexivity.
Qed.

(** C8.  A zero-dimensional tensor is captured as a scalar descriptor,
    which has a type and a value and no shape; and a Mean record whose
    first positional descriptor has no shape but a value is given the
    shape (1,), so that it has one element, as the empty shape has. *)
Theorem Mean_scalar_operand
  (d : Data.t) (text : expr) (mk m o a i ty : pyval)
  (items rest : list pyval)
  (Htext : argMarker0 d = Ok text)
  (Heval : eval text = Ok mk)
  (Hmod : getitem mk "mod" = Ok m)
  (Hop : getitem mk "op" = Ok o)
  (Hargs : getitem mk "args" = Ok a)
  (Howned : owned_mod m = true)
  (Hmean : eq_str o "mean" = true)
  (Hiter : iter a = Ok items)
  (Hpos : filterM (name_is "") items = Ok (i :: rest))
  (Hlen : (List.length rest <= 1)%nat)
  (Hshape : contains "shape" i = Ok false)
  (Hvalue : contains "value" i = Ok true)
  (Htype : getitem i "type" = Ok ty) :
  (exists s,
     Mean.init d = Ok s /\
     Mean.shape s = VTuple [VInt 1] /\ Mean.type s = ty /\
     Mean.elems s = Ok 1) /\
  numElems (VTuple []) = Ok 1 /\
  (forall dtype item name acc,
     exists desc,
       argMarker.foo_arg name (VTensor [] dtype item) acc
       = (acc ++ [desc])%list /\
       contains "shape" desc = Ok false /\
       contains "value" desc = Ok true /\
       getitem desc "type" = Ok (VStr (argMarker.type_name item))).
Proof.
  split.
  - eexists. split.
    + exact (Mean_init_scalar d text mk m o a i ty items rest Htext Heval
               Hmod Hop Hargs Howned Hmean Hiter Hpos Hlen Hshape Hvalue
               Htype).
    + repeat split.
  - split; [ reflexivity | ]. intros dtype item name acc. eexists. cbn.
    unfold argMarker.scalar. split; [ reflexivity | ]. repeat split.
Qed.

(** [torch.mean(x)] for a zero-dimensional 32-bit float tensor holding
    2.5 has one element. *)
Lemma Mean_scalar_operand_witness :
  exists s,
    Mean.init
      (row "torch" "mean" [VTensor [] "torch.float32" (VFloat (FFin 5 (-1)))]
           0) = Ok s /\
    Mean.shape s = VTuple [VInt 1] /\ Mean.type s = VStr "float" /\
    Mean.elems s = Ok 1.
Proof.
  refine (proj1 (Mean_scalar_operand
                   (row "torch" "mean"
                        [VTensor [] "torch.float32" (VFloat (FFin 5 (-1)))] 0)
                   _ _ _ _ _ _ _ _ []
                   eq_refl eq_refl eq_refl eq_refl eq_refl eq_refl eq_refl
                   eq_refl eq_refl _ eq_refl eq_refl eq_refl)).
  cbn. lia.
Defined.

(** ** Norm: the first argument *)

(** C10, as stated, fails: the record of [torch.norm(input=x)] has a
    named first argument and the Norm calculator is built from it. *)
Lemma Norm_accepts_named_operand :
  ~ Norm_rejects_named_or_shapeless norm_by_keyword.
Proof.
  intros H.
  refine (H _ _ _ _ eq_refl eq_refl eq_refl eq_refl _ _ eq_refl).
  left. reflexivity.
Qed.

(** C10, amended.  The Norm calculator takes the first descriptor
    whatever its name, with no filtering and no scalar fallback: it fails
    when that descriptor has no shape or no dtype, and otherwise is built
    with that shape and dtype. *)
Theorem Norm_first_argument
  (d : Data.t) (text : expr) (mk m o a i : pyval)
  (Htext : argMarker0 d = Ok text)
  (Heval : eval text = Ok mk)
  (Hmod : getitem mk "mod" = Ok m)
  (Hop : getitem mk "op" = Ok o)
  (Hargs : getitem mk "args" = Ok a)
  (Howned : owned_mod m = true)
  (Hnorm : eq_str o "norm" = true)
  (Hfirst : getitem0 a = Ok i) :
  (contains "shape" i = Ok false -> Norm.init d = Raise KeyError) /\
  (forall sh, getitem i "shape" = Ok sh ->
     contains "dtype" i = Ok false -> Norm.init d = Raise KeyError) /\
  (forall sh ty,
     getitem i "shape" = Ok sh -> getitem i "dtype" = Ok ty ->
     Norm.init d = Ok (Norm.Build_t mk m o a sh ty (Data.sub d))).
Proof.
  unfold Norm.init.
  rewrite Htext; cbn [bind]. rewrite Heval; cbn [bind].
  rewrite Hmod, Hop, Hargs; cbn [bind].
  rewrite Howned, Hnorm; cbn [assert bind]. rewrite Hfirst; cbn [bind].
  split; [ | split ].
  - intros H. destruct i; try discriminate H. cbn in *.
    destruct (lookup "shape" d0); [ discriminate H | reflexivity ].
  - intros sh Hsh H. rewrite Hsh; cbn [bind].
    destruct i; try discriminate H. cbn in *.
    destruct (lookup "dtype" d0); [ discriminate H | reflexivity ].
  - intros sh ty Hsh Hty. rewrite Hsh; cbn [bind]. rewrite Hty.
    reflexivity.
Qed.

(** The record of [torch.norm(input=x)], x a 16-bit float tensor of
    shape (10,), gives a calculator of that shape and dtype. *)
Lemma Norm_first_argument_witness :
  exists s,
    Norm.init norm_by_keyword = Ok s /\
    Norm.shape s = VTuple [VInt 10] /\ Norm.type s = VStr "float16".
Proof.
  eexists. split.
  - refine (proj2 (proj2 (Norm_first_argument norm_by_keyword _ _ _ _ _ _
                            eq_refl eq_refl eq_refl eq_refl eq_refl
                            eq_refl eq_refl eq_refl)) _ _ eq_refl eq_refl).
  - split; reflexivity.
Defined.

(** ** Special floats *)

(** C9.  A scalar argument that is +infinity, -infinity or not-a-number,
    passed as such or as a zero-dimensional tensor, is described by a
    float descriptor whose value is the word inf, -inf or nan.  The
    printed descriptor reads back unchanged, it has no shape, and a Mean
    record with this operand has the shape (1,) and one element whatever
    the value. *)
Theorem special_floats_captured
  (f : pyfloat) (tok name : string) (acc : list pyval)
  (Hspecial : special_token f = Some tok) :
  let desc := VDict [("name", VStr name); ("type", VStr "float");
                     ("value", VStr tok)] in
  argMarker.scalar (VFloat f) name acc = (acc ++ [desc])%list /\
  argMarker.foo [VFloat f] name acc = (acc ++ [desc])%list /\
  (forall dtype,
     argMarker.foo [VTensor [] dtype (VFloat f)] name acc
     = (acc ++ [desc])%list) /\
  eval (str desc) = Ok desc /\
  contains "shape" desc = Ok false /\
  getitem desc "shape" = Raise KeyError /\
  (forall mod_name sub,
     owned_mod (VStr mod_name) = true ->
     exists s,
       Mean.init (row mod_name "mean" [VFloat f] sub) = Ok s /\
       Mean.shape s = VTuple [VInt 1] /\ Mean.elems s = Ok 1).
Proof.
  intros desc. subst desc.
  destruct f; cbn in Hspecial; try discriminate Hspecial;
    injection Hspecial as <-;
    (repeat split; try reflexivity;
     intros mod_name sub Hown; eexists; split;
     [ eapply Mean_init_scalar with (rest := []);
       try reflexivity; [ exact Hown | cbn; lia ]
     | split; reflexivity ]).
Qed.

(** [torch.mean(float('-inf'))]: the descriptor holds the word -inf. *)
Lemma special_floats_captured_witness :
  argMarker.foo [VFloat FNegInf] "" []
  = [VDict [("name", VStr ""); ("type", VStr "float");
            ("value", VStr "-inf")]] /\
  exists s,
    Mean.init (row "torch" "mean" [VFloat FNegInf] 0) = Ok s /\
    Mean.shape s = VTuple [VInt 1] /\ Mean.elems s = Ok 1.
Proof.
  pose proof (special_floats_captured FNegInf "-inf" "" [] eq_refl) as H.
  cbv zeta in H. destruct H as (_ & Hfoo & _ & _ & _ & _ & Hmean).
  split; [ exact Hfoo | exact (Hmean "torch" 0 eq_refl) ].
Defined.

(** ** Printing a marker and reading it back *)

Lemma eval_items_repr (l : list pyval) :
  Forall (fun v => plain v = true -> eval_expr (repr v) = Ok v) l ->
  forallb plain l = true ->
  eval_items (map repr l) = Ok l.
Proof.
  induction 1 as [ | v l Hv _ IH]; cbn; [ reflexivity | ].
  intros H. apply andb_prop in H as [Hp Hl].
  rewrite (Hv Hp). cbn [bind]. fold eval_items. rewrite (IH Hl).
  reflexivity.
Qed.

(** Appending an entry under a key the dictionary does not hold. *)
Lemma dict_set_fresh (k : string) (v : pyval) (acc : list (string * pyval)) :
  existsb (fun kv => String.eqb k (fst kv)) acc = false ->
  dict_set k v acc = (acc ++ [(k, v)])%list.
Proof.
  induction acc as [ | [k' v'] acc IH]; cbn; [ reflexivity | ].
  intros H. apply orb_false_elim in H as [Hk Hacc].
  rewrite Hk, (IH Hacc). reflexivity.
Qed.

Lemma eval_entries_repr (d acc : list (string * pyval)) :
  Forall (fun kv => plain (snd kv) = true ->
                    eval_expr (repr (snd kv)) = Ok (snd kv)) d ->
  forallb (fun kv => plain (snd kv)) d = true ->
  distinct_keys d = true ->
  (forall k, existsb (fun kv => String.eqb k (fst kv)) d = true ->
             existsb (fun kv => String.eqb k (fst kv)) acc = false) ->
  eval_entries (map (fun kv => (fst kv, repr (snd kv))) d) acc
  = Ok (acc ++ d)%list.
Proof.
  intros Hd. revert acc.
  induction Hd as [ | [k v] d Hv _ IH]; intros acc Hp Hk Hacc; cbn.
  - rewrite app_nil_r. reflexivity.
  - cbn in Hp, Hk, Hv.
    apply andb_prop in Hp as [Hpv Hpd].
    apply andb_prop in Hk as [Hkd Hkk].
    apply negb_true_iff in Hkd.
    rewrite (Hv Hpv). cbn [bind]. fold eval_entries.
    rewrite dict_set_fresh.
    + rewrite IH; [ rewrite <- app_assoc; reflexivity | assumption
                  | assumption | ].
      intros k' Hk'. rewrite existsb_app. cbn.
      rewrite (Hacc k') by (cbn; rewrite Hk'; apply orb_true_r).
      destruct (String.eqb k' k) eqn:E; [ | reflexivity ].
      apply String.eqb_eq in E. subst k'. congruence.
    + apply Hacc. cbn. rewrite String.eqb_refl. reflexivity.
Qed.

(** Evaluating the printed form of a plain value gives the value back. *)
Lemma eval_expr_repr (v : pyval) :
  plain v = true -> eval_expr (repr v) = Ok v.
Proof.
  induction v as [ z | f | b | | s | l IH | l IH | d IH
                 | size dtype item _ | shape dtype | n ]
    using pyval_nested_ind; cbn [plain]; intros H;
    try discriminate H; try reflexivity.
  - destruct f; try discriminate H. reflexivity.
  - cbn [repr eval_expr]. fold eval_items.
    rewrite (eval_items_repr l IH H). reflexivity.
  - cbn [repr eval_expr]. fold eval_items.
    rewrite (eval_items_repr l IH H). reflexivity.
  - apply andb_prop in H as [Hk Hp].
    cbn [repr eval_expr]. fold eval_entries.
    rewrite (eval_entries_repr d [] IH Hp Hk); [ reflexivity | ].
    reflexivity.
Qed.

Lemma has_other_repr (v : pyval) : plain v = true -> has_other (repr v) = false.
Proof.
  induction v as [ z | f | b | | s | l IH | l IH | d IH
                 | size dtype item _ | shape dtype | n ]
    using pyval_nested_ind; cbn [plain]; intros H;
    try discriminate H; try reflexivity.
  - destruct f; try discriminate H. reflexivity.
  - cbn [repr has_other]. induction IH as [ | x l Hx _ IHl]; cbn in *;
      [ reflexivity | ].
    apply andb_prop in H as [H1 H2]. rewrite (Hx H1), (IHl H2). reflexivity.
  - cbn [repr has_other]. induction IH as [ | x l Hx _ IHl]; cbn in *;
      [ reflexivity | ].
    apply andb_prop in H as [H1 H2]. rewrite (Hx H1), (IHl H2). reflexivity.
  - apply andb_prop in H as [_ H].
    cbn [repr has_other]. induction IH as [ | x l Hx _ IHl]; cbn in *;
      [ reflexivity | ].
    apply andb_prop in H as [H1 H2]. rewrite (Hx H1), (IHl H2). reflexivity.
Qed.

(** Reading back the printed form of a plain value gives the value, and
    printing it again gives the same text. *)
Lemma eval_str (v : pyval) :
  plain v = true -> eval (str v) = Ok v /\ (forall v', eval (str v) = Ok v' -> str v' = str v).
Proof.
  intros H. unfold eval, str. rewrite (has_other_repr v H).
  rewrite (eval_expr_repr v H). split; [ reflexivity | ].
  intros v' E. injection E as <-. reflexivity.
Qed.

(** A marker whose dictionary is plain is read back as that dictionary. *)
Lemma marker_round_trip
  (mod_name op : string) (args : list pyval) (kwargs : list (string * pyval)) :
  plain (argMarker.cadena mod_name op args kwargs) = true ->
  eval (argMarker.argMarker mod_name op args kwargs)
  = Ok (argMarker.cadena mod_name op args kwargs).
Proof. intros H. apply (eval_str _ H). Qed.

(** *** Descriptors of capturable arguments are plain *)

Lemma plain_dims (size : list Z) : plain (argMarker.dims size) = true.
Proof.
  cbn. induction size as [ | z size IH]; [ reflexivity | exact IH ].
Qed.

Lemma forallb_plain_snoc (acc : list pyval) (v : pyval) :
  forallb plain acc = true -> plain v = true ->
  forallb plain (acc ++ [v]) = true.
Proof.
  intros Hacc Hv. rewrite forallb_app, Hacc. cbn. rewrite Hv. reflexivity.
Qed.

Lemma scalar_plain (arg : pyval) (name : string) (acc : list pyval) :
  argMarker.isscalar arg = true ->
  forallb plain acc = true ->
  forallb plain (argMarker.scalar arg name acc) = true.
Proof.
  intros Hs Hacc. apply forallb_plain_snoc; [ exact Hacc | ].
  destruct arg as [ | [ | | | ] | | | | | | | | | ];
    try discriminate Hs; reflexivity.
Qed.

Lemma seq_plain (arg : pyval) (name : string) (acc : list pyval) :
  plain arg = true ->
  forallb plain acc = true ->
  forallb plain (argMarker.seq arg name acc) = true.
Proof.
  intros Hp Hacc.
  destruct arg; apply forallb_plain_snoc; try exact Hacc;
    cbn [plain distinct_keys forallb existsb snd fst]; cbn in Hp |- *;
    try rewrite Hp; try reflexivity; discriminate Hp.
Qed.

Lemma foo_arg_plain (arg : pyval) :
  capturable arg = true ->
  forall name acc,
    forallb plain acc = true ->
    forallb plain (argMarker.foo_arg name arg acc) = true.
Proof.
  induction arg as [ z | f | b | | s | l IH | l IH | d IH
                   | size dtype item _ | shape dtype | n ]
    using pyval_nested_ind; intros Hc name acc Hacc;
    try (apply scalar_plain; [ reflexivity | exact Hacc ]);
    try exact Hacc.
  - cbn [argMarker.foo_arg]. cbn [capturable] in Hc.
    destruct (argMarker.empty_or_scalars l).
    + apply seq_plain; [ exact Hc | exact Hacc ].
    + revert acc Hacc.
      induction IH as [ | x l Hx _ IHl]; intros acc Hacc; cbn;
        [ exact Hacc | ].
      cbn in Hc. apply andb_prop in Hc as [Hcx Hcl].
      apply (IHl Hcl). apply (Hx Hcx). exact Hacc.
  - cbn [argMarker.foo_arg]. cbn [capturable] in Hc.
    destruct (argMarker.empty_or_scalars l).
    + apply seq_plain; [ exact Hc | exact Hacc ].
    + revert acc Hacc.
      induction IH as [ | x l Hx _ IHl]; intros acc Hacc; cbn;
        [ exact Hacc | ].
      cbn in Hc. apply andb_prop in Hc as [Hcx Hcl].
      apply (IHl Hcl). apply (Hx Hcx). exact Hacc.
  - cbn [argMarker.foo_arg]. cbn [capturable] in Hc. destruct size.
    + apply scalar_plain; [ exact Hc | exact Hacc ].
    + apply forallb_plain_snoc; [ exact Hacc | ].
      pose proof (plain_dims (z :: size)) as Hd. cbn in Hd |- *.
      rewrite Hd. reflexivity.
  - cbn [argMarker.foo_arg]. apply forallb_plain_snoc; [ exact Hacc | ].
    pose proof (plain_dims shape) as Hd. cbn in Hd |- *.
    rewrite Hd. reflexivity.
Qed.

Lemma foo_plain (args : list pyval) (name : string) (acc : list pyval) :
  forallb capturable args = true ->
  forallb plain acc = true ->
  forallb plain (argMarker.foo args name acc) = true.
Proof.
  unfold argMarker.foo. revert acc.
  induction args as [ | x args IH]; intros acc Hc Hacc; cbn;
    [ exact Hacc | ].
  cbn in Hc. apply andb_prop in Hc as [Hx Hargs].
  apply (IH _ Hargs). apply foo_arg_plain; assumption.
Qed.

(** The dictionary of a call whose arguments are all capturable is
    plain. *)
Lemma cadena_plain
  (mod_name op : string) (args : list pyval) (kwargs : list (string * pyval)) :
  forallb capturable args = true ->
  forallb (fun kv => capturable (snd kv)) kwargs = true ->
  plain (argMarker.cadena mod_name op args kwargs) = true.
Proof.
  intros Hargs Hkw. unfold argMarker.cadena.
  cbn [plain distinct_keys forallb existsb snd fst].
  assert (H : forallb plain
                (fold_left (fun acc kv => argMarker.foo [snd kv] (fst kv) acc)
                           kwargs (argMarker.foo args "" [])) = true).
  { generalize (foo_plain args "" [] Hargs eq_refl).
    generalize (argMarker.foo args "" []).
    induction kwargs as [ | [k v] kwargs IH]; intros acc Hacc; cbn;
      [ exact Hacc | ].
    cbn in Hkw. apply andb_prop in Hkw as [Hv Hkw].
    apply (IH Hkw). apply foo_arg_plain; assumption. }
  rewrite H. reflexivity.
Qed.

(** The record of a call whose arguments are all capturable is read back
    as the dictionary that was printed: module, operator and the
    descriptors, in order, are those the producer wrote. *)
Lemma capturable_round_trip
  (mod_name op : string) (args : list pyval) (kwargs : list (string * pyval)) :
  forallb capturable args = true ->
  forallb (fun kv => capturable (snd kv)) kwargs = true ->
  eval (argMarker.argMarker mod_name op args kwargs)
  = Ok (argMarker.cadena mod_name op args kwargs).
Proof.
  intros Hargs Hkw. apply marker_round_trip.
  apply cadena_plain; assumption.
Qed.

(** C6.  The record of a call that passes a list holding +infinity is
    printed with the bare word inf in it; reading it back raises
    NameError in each constructor, before any field is recovered.  The
    same value passed as a scalar is stored as the string inf and the
    record reads back as the dictionary that was printed. *)
Theorem inf_in_sequence_not_decodable :
  argMarker.argMarker "torch" "tensor" tensor_of_inf []
  = EDict
      [("mod", EConst (CStr "torch")); ("op", EConst (CStr "tensor"));
       ("args",
        EList
          [EDict [("name", EConst (CStr ""));
                  ("type", EConst (CStr "list"));
                  ("value", EList [EName "inf"; EConst (CFloat 1 0)])]])] /\
  eval (argMarker.argMarker "torch" "tensor" tensor_of_inf [])
  = Raise NameError /\
  Mean.init (row "torch" "tensor" tensor_of_inf 0) = Raise NameError /\
  Sum.init (row "torch" "tensor" tensor_of_inf 0) = Raise NameError /\
  Norm.init (row "torch" "tensor" tensor_of_inf 0) = Raise NameError /\
  Mean.init (row "torch" "mean" mean_with_inf_list 0) = Raise NameError /\
  eval (argMarker.argMarker "torch" "mean" mean_with_inf_scalar [])
  = Ok (argMarker.cadena "torch" "mean" mean_with_inf_scalar []).
Proof.
  do 6 (split; [ reflexivity | ]).
  apply marker_round_trip. reflexivity.
Qed.

(** ** Decoding *)

(** C2, as stated, fails: the Norm constructor accepts a text that is not
    a literal and whose marker does not satisfy the schema, and reports
    21 flops for it. *)
Lemma eval_accepts_unchecked_text :
  ~ decoded_by_validating_parser unchecked_norm /\
  exists s,
    Norm.init unchecked_norm = Ok s /\ Norm.flops s = Ok 21 /\
    literal unchecked_norm_text = false /\
    schema_valid (Norm.marker s) = false.
Proof.
  split.
  - intros H.
    destruct (H unchecked_norm_text eq_refl) as [Hlit _].
    + right; right. eexists. reflexivity.
    + discriminate Hlit.
  - eexists. split; [ reflexivity | ]. repeat split.
Qed.

(** C2, amended.  Each constructor decodes the text with [eval], without
    validating a schema: when a constructor succeeds, the marker it keeps
    is the value of the text; when the evaluation raises, each
    constructor raises the same exception; and a text that is not a
    literal, whose marker does not satisfy the schema, is accepted, the
    name in it being resolved in the scope of the constructor. *)
Theorem decoding_is_eval (d : Data.t) (text : expr)
  (Htext : argMarker0 d = Ok text) :
  (forall s, Mean.init d = Ok s -> eval text = Ok (Mean.marker s)) /\
  (forall s, Sum.init d = Ok s -> eval text = Ok (Sum.marker s)) /\
  (forall s, Norm.init d = Ok s -> eval text = Ok (Norm.marker s)) /\
  (forall e, eval text = Raise e ->
     Mean.init d = Raise e /\ Sum.init d = Raise e /\ Norm.init d = Raise e) /\
  (exists s,
     Norm.init unchecked_norm = Ok s /\
     literal unchecked_norm_text = false /\
     schema_valid (Norm.marker s) = false /\
     Norm.type s = VObject "OrderedDict").
Proof.
  unfold Mean.init, Sum.init, Norm.init. rewrite Htext. cbn [bind].
  split; [ | split; [ | split; [ | split ] ] ].
  - intros s H. destruct (eval text) as [mk | e]; [ | discriminate H ].
    cbn [bind] in H. unbind H; unbind H; injection H as <-; reflexivity.
  - intros s H. destruct (eval text) as [mk | e]; [ | discriminate H ].
    cbn [bind] in H. unbind H. injection H as <-. reflexivity.
  - intros s H. destruct (eval text) as [mk | e]; [ | discriminate H ].
    cbn [bind] in H. unbind H. injection H as <-. reflexivity.
  - intros e H. rewrite H. repeat split.
  - eexists. split; [ reflexivity | ]. repeat split.
Qed.

(** The marker of the unchecked norm record is the value of its text,
    with the name OrderedDict resolved to the imported object. *)
Lemma decoding_is_eval_witness :
  exists s,
    Norm.init unchecked_norm = Ok s /\
    eval unchecked_norm_text = Ok (Norm.marker s) /\
    Norm.type s = VObject "OrderedDict".
Proof.
  eexists. split; [ reflexivity | ]. split.
  - exact (proj1 (proj2 (proj2 (decoding_is_eval unchecked_norm
                                  unchecked_norm_text eq_refl)))
             _ eq_refl).
  - reflexivity.
Defined.

(** ** Further properties of the calculators *)

(** What a row made by the producer decodes to, when the arguments of the
    call are capturable. *)
Lemma row_decodes
  (mod_name op : string) (args : list pyval) (sub : Z) :
  forallb capturable args = true ->
  argMarker0 (row mod_name op args sub)
  = Ok (argMarker.argMarker mod_name op args []) /\
  eval (argMarker.argMarker mod_name op args [])
  = Ok (VDict [("mod", VStr mod_name); ("op", VStr op);
               ("args", VList (argMarker.foo args "" []))]).
Proof.
  intros H. split; [ reflexivity | ].
  apply (capturable_round_trip mod_name op args [] H eq_refl).
Qed.

(** X1.  A Mean record needs one or two positional descriptors: with
    none, construction raises IndexError; with three or more,
    AssertionError. *)
Theorem Mean_positional_count
  (d : Data.t) (text : expr) (mk m o a : pyval) (items pos : list pyval)
  (Htext : argMarker0 d = Ok text)
  (Heval : eval text = Ok mk)
  (Hmod : getitem mk "mod" = Ok m)
  (Hop : getitem mk "op" = Ok o)
  (Hargs : getitem mk "args" = Ok a)
  (Howned : owned_mod m = true)
  (Hmean : eq_str o "mean" = true)
  (Hiter : iter a = Ok items)
  (Hpos : filterM (name_is "") items = Ok pos) :
  (pos = [] -> Mean.init d = Raise IndexError) /\
  ((3 <= List.length pos)%nat -> Mean.init d = Raise AssertionError).
Proof.
  unfold Mean.init.
  rewrite Htext; cbn [bind]. rewrite Heval; cbn [bind].
  rewrite Hmod, Hop, Hargs; cbn [bind].
  rewrite Howned, Hmean; cbn [assert bind].
  rewrite Hiter; cbn [bind]. rewrite Hpos; cbn [bind].
  split.
  - intros ->. reflexivity.
  - intros Hlen.
    replace (Z.of_nat (List.length pos) <=? 2) with false
      by (symmetry; apply Z.leb_gt; lia).
    reflexivity.
Qed.

(** [torch.mean(input=x)] raises IndexError and [torch.mean(x, 1, True)]
    raises AssertionError. *)
Lemma Mean_positional_count_witness :
  Mean.init mean_by_keyword = Raise IndexError /\
  Mean.init mean_three_positional = Raise AssertionError.
Proof.
  split.
  - refine (proj1 (Mean_positional_count mean_by_keyword _ _ _ _ _ _ []
                     eq_refl eq_refl eq_refl eq_refl eq_refl eq_refl
                     eq_refl eq_refl eq_refl) eq_refl).
  - refine (proj2 (Mean_positional_count mean_three_positional
                     _ _ _ _ _ _ _
                     eq_refl eq_refl eq_refl eq_refl eq_refl eq_refl
                     eq_refl eq_refl eq_refl) _).
    cbn. lia.
Defined.

(** X2.  A Sum record needs an operand: with an empty argument list
    construction raises AssertionError, and when the first descriptor is
    named and no descriptor is named input it raises IndexError. *)
Theorem Sum_needs_operand
  (d : Data.t) (text : expr) (mk m o a : pyval)
  (Htext : argMarker0 d = Ok text)
  (Heval : eval text = Ok mk)
  (Hmod : getitem mk "mod" = Ok m)
  (Hop : getitem mk "op" = Ok o)
  (Hargs : getitem mk "args" = Ok a)
  (Howned : owned_mod m = true)
  (Hsum : eq_str o "sum" = true) :
  (a = VList [] \/ a = VTuple [] -> Sum.init d = Raise AssertionError) /\
  (forall a0 rest,
     a = VList (a0 :: rest) \/ a = VTuple (a0 :: rest) ->
     name_is "" a0 = Ok false ->
     filterM (name_is "input") (a0 :: rest) = Ok [] ->
     Sum.init d = Raise IndexError).
Proof.
  unfold Sum.init.
  rewrite Htext; cbn [bind]. rewrite Heval; cbn [bind].
  rewrite Hmod, Hop, Hargs; cbn [bind].
  rewrite Howned, Hsum; cbn [assert bind].
  split.
  - intros [-> | ->]; reflexivity.
  - intros a0 rest Ha Hnamed Hnone.
    assert (Hlen : exists n, len a = Ok n /\ (1 <=? n) = true).
    { exists (Z.of_nat (List.length (a0 :: rest))).
      split; [ destruct Ha; subst a; reflexivity | ].
      apply Z.leb_le. cbn [List.length]. lia. }
    destruct Hlen as (n & Hn & Hle). rewrite Hn; cbn [bind].
    rewrite Hle; cbn [assert bind].
    unfold Sum.get_input.
    replace (getitem0 a) with (Ok (A := pyval) a0)
      by (destruct Ha; subst a; reflexivity).
    cbn [bind]. rewrite Hnamed; cbn [bind].
    replace (iter a) with (Ok (A := list pyval) (a0 :: rest))
      by (destruct Ha; subst a; reflexivity).
    cbn [bind]. rewrite Hnone. reflexivity.
Qed.

(** A sum record without descriptors raises AssertionError and the
    record of [torch.sum(dim=1)] raises IndexError. *)
Lemma Sum_needs_operand_witness :
  Sum.init (row "torch" "sum" [] 0) = Raise AssertionError /\
  Sum.init sum_without_input = Raise IndexError.
Proof.
  split.
  - refine (proj1 (Sum_needs_operand (row "torch" "sum" [] 0) _ _ _ _ _
                     eq_refl eq_refl eq_refl eq_refl eq_refl eq_refl
                     eq_refl) (or_introl eq_refl)).
  - refine (proj2 (Sum_needs_operand sum_without_input _ _ _ _ _
                     eq_refl eq_refl eq_refl eq_refl eq_refl eq_refl
                     eq_refl) _ _ (or_introl eq_refl) eq_refl eq_refl).
Defined.

(** X3.  Sum and Norm have no scalar fallback: the record of a call on a
    Python scalar or on a zero-dimensional tensor is rejected with
    KeyError by both, at every nesting level. *)
Theorem Sum_Norm_reject_scalar
  (mod_name : string) (arg : pyval) (sub : Z)
  (Howned : owned_mod (VStr mod_name) = true)
  (Hscalar : argMarker.isscalar arg = true \/
             exists dtype item,
               arg = VTensor [] dtype item /\
               argMarker.isscalar item = true) :
  Sum.init (row mod_name "sum" [arg] sub) = Raise KeyError /\
  Norm.init (row mod_name "norm" [arg] sub) = Raise KeyError.
Proof.
  assert (Hcap : forallb capturable [arg] = true).
  { destruct Hscalar as [H | (dtype & item & -> & H)].
    - destruct arg; try discriminate H; reflexivity.
    - cbn. rewrite H. reflexivity. }
  assert (Hdesc : exists v,
             argMarker.foo [arg] "" []
             = [VDict [("name", VStr ""); ("type", VStr (argMarker.type_name v));
                       ("value",
                        match v with
                        | VFloat FInf => VStr "inf"
                        | VFloat FNegInf => VStr "-inf"
                        | VFloat FNaN => VStr "nan"
                        | _ => v
                        end)]]).
  { destruct Hscalar as [H | (dtype & item & -> & H)].
    - exists arg. destruct arg; try discriminate H; reflexivity.
    - exists item. reflexivity. }
  destruct Hdesc as [v Hdesc].
  split.
  - destruct (row_decodes mod_name "sum" [arg] sub Hcap) as [H0 Hev].
    unfold Sum.init. rewrite H0; cbn [bind]. rewrite Hev; cbn [bind].
    rewrite Hdesc. cbn. rewrite Howned. reflexivity.
  - destruct (row_decodes mod_name "norm" [arg] sub Hcap) as [H0 Hev].
    unfold Norm.init. rewrite H0; cbn [bind]. rewrite Hev; cbn [bind].
    rewrite Hdesc. cbn. rewrite Howned. reflexivity.
Qed.

(** [torch.sum] and [torch.norm] of a zero-dimensional 32-bit float
    tensor holding 2.5. *)
Lemma Sum_Norm_reject_scalar_witness :
  Sum.init
    (row "torch" "sum" [VTensor [] "torch.float32" (VFloat (FFin 5 (-1)))] 0)
  = Raise KeyError /\
  Norm.init
    (row "torch" "norm" [VTensor [] "torch.float32" (VFloat (FFin 5 (-1)))] 0)
  = Raise KeyError.
Proof.
  apply (Sum_Norm_reject_scalar "torch" _ 0 eq_refl).
  right. do 2 eexists. split; reflexivity.
Defined.

(** The calculators built from the record of a call on one tensor of at
    least one dimension. *)
Lemma tensor_row_init
  (mod_name dtype : string) (z : Z) (size : list Z) (item : pyval) (sub : Z) :
  owned_mod (VStr mod_name) = true ->
  let x := VTensor (z :: size) dtype item in
  let shape := VTuple (map VInt (z :: size)) in
  let type := VStr (argMarker.last_part dtype "") in
  (exists mk a,
     Mean.init (row mod_name "mean" [x] sub)
     = Ok (Mean.Build_t mk (VStr mod_name) (VStr "mean") a shape type
                        "fprop" sub)) /\
  (exists mk a,
     Sum.init (row mod_name "sum" [x] sub)
     = Ok (Sum.Build_t mk (VStr mod_name) (VStr "sum") a shape type sub)) /\
  (exists mk a,
     Norm.init (row mod_name "norm" [x] sub)
     = Ok (Norm.Build_t mk (VStr mod_name) (VStr "norm") a shape type sub)).
Proof.
  intros Howned x shape type. subst x shape type.
  assert (Hcap : forallb capturable [VTensor (z :: size) dtype item] = true)
    by reflexivity.
  split; [ | split ].
  - destruct (row_decodes mod_name "mean" _ sub Hcap) as [H0 Hev].
    do 2 eexists. unfold Mean.init. rewrite H0; cbn [bind].
    rewrite Hev; cbn [bind]. cbn. rewrite Howned. reflexivity.
  - destruct (row_decodes mod_name "sum" _ sub Hcap) as [H0 Hev].
    do 2 eexists. unfold Sum.init. rewrite H0; cbn [bind].
    rewrite Hev; cbn [bind]. cbn. rewrite Howned. reflexivity.
  - destruct (row_decodes mod_name "norm" _ sub Hcap) as [H0 Hev].
    do 2 eexists. unfold Norm.init. rewrite H0; cbn [bind].
    rewrite Hev; cbn [bind]. cbn. rewrite Howned. reflexivity.
Qed.

(** X4.  From the call to the metrics: for a tensor of at least one
    dimension passed as the only argument of mean, sum or norm, the
    calculator is built with the tensor's size as shape and with what
    follows the last dot of its dtype as type, and its element count is
    the product of the size. *)
Theorem tensor_call_end_to_end
  (mod_name dtype : string) (size : list Z) (item : pyval) (sub : Z)
  (Howned : owned_mod (VStr mod_name) = true)
  (Hsize : size <> []) :
  let x := VTensor size dtype item in
  let shape := VTuple (map VInt size) in
  let type := VStr (argMarker.last_part dtype "") in
  (exists s, Mean.init (row mod_name "mean" [x] sub) = Ok s /\
             Mean.shape s = shape /\ Mean.type s = type /\
             Mean.sub s = sub /\ Mean.elems s = Ok (product size)) /\
  (exists s, Sum.init (row mod_name "sum" [x] sub) = Ok s /\
             Sum.shape s = shape /\ Sum.type s = type /\
             Sum.sub s = sub /\ Sum.elems s = Ok (product size)) /\
  (exists s, Norm.init (row mod_name "norm" [x] sub) = Ok s /\
             Norm.shape s = shape /\ Norm.type s = type /\
             Norm.sub s = sub /\ Norm.elems s = Ok (product size)).
Proof.
  intros x shape type. subst x shape type.
  destruct size as [ | z size]; [ contradiction | clear Hsize ].
  destruct (tensor_row_init mod_name dtype z size item sub Howned)
    as ((mk1 & a1 & H1) & (mk2 & a2 & H2) & (mk3 & a3 & H3)).
  pose proof (numElems_tuple (z :: size)) as Hn.
  split; [ | split ]; eexists;
    (split; [ eassumption | repeat split; exact Hn ]).
Qed.

(** [x.sum()] for a 64-bit integer tensor of shape (2, 3, 5). *)
Lemma tensor_call_end_to_end_witness :
  exists s,
    Sum.init (row "Tensor" "sum" [VTensor [2; 3; 5] "torch.int64" VNone] 1)
    = Ok s /\
    Sum.shape s = VTuple [VInt 2; VInt 3; VInt 5] /\
    Sum.type s = VStr "int64" /\ Sum.sub s = 1 /\ Sum.elems s = Ok 30.
Proof.
  assert (H : [2; 3; 5] <> []) by discriminate.
  exact (proj1 (proj2 (tensor_call_end_to_end "Tensor" "torch.int64"
                         [2; 3; 5] VNone 1 eq_refl H))).
Defined.

(** X5.  A dtype without a byte width makes [bytes()] of Sum and of Norm
    raise at every nesting level, since both multiply before they test
    the level, while their flops and the element count are still
    reported; [bytes()] of Mean raises at level 0 only. *)
Theorem unknown_width_at_nested_level
  (mod_name dtype : string) (size : list Z) (item : pyval) (sub : Z)
  (e : exn)
  (Howned : owned_mod (VStr mod_name) = true)
  (Hsize : size <> [])
  (Hwidth : typeToBytes (VStr (argMarker.last_part dtype "")) = Raise e) :
  let x := VTensor size dtype item in
  (exists s, Sum.init (row mod_name "sum" [x] sub) = Ok s /\
             Sum.bytes s = Raise e /\ Sum.flops s = Ok (product size)) /\
  (exists s, Norm.init (row mod_name "norm" [x] sub) = Ok s /\
             Norm.bytes s = Raise e /\
             Norm.flops s
             = Ok (if sub =? 0 then 2 * product size + 1 else 0)) /\
  (exists s, Mean.init (row mod_name "mean" [x] sub) = Ok s /\
             Mean.bytes s = (if sub =? 0 then Raise e else Ok 0)).
Proof.
  intros x. subst x.
  destruct size as [ | z size]; [ contradiction | clear Hsize ].
  destruct (tensor_row_init mod_name dtype z size item sub Howned)
    as ((mk1 & a1 & H1) & (mk2 & a2 & H2) & (mk3 & a3 & H3)).
  pose proof (numElems_tuple (z :: size)) as Hn.
  split; [ | split ]; eexists; (split; [ eassumption | ]).
  - unfold Sum.bytes, Sum.flops, Sum.elems. cbn [Sum.shape Sum.type].
    rewrite Hn, Hwidth. split; reflexivity.
  - unfold Norm.bytes, Norm.flops, Norm.elems.
    cbn [Norm.shape Norm.type Norm.sub].
    rewrite Hn, Hwidth. cbn [bind]. split; [ reflexivity | ].
    destruct (sub =? 0); reflexivity.
  - unfold Mean.bytes, Mean.elems. cbn [Mean.shape Mean.type Mean.sub].
    rewrite Hn, Hwidth. destruct (sub =? 0); reflexivity.
Qed.

(** [x.sum()] for a complex tensor of shape (4, 8) inside another call:
    32 flops and no byte count. *)
Lemma unknown_width_at_nested_level_witness :
  exists s,
    Sum.init
      (row "Tensor" "sum" [VTensor [4; 8] "torch.complex64" VNone] 1) = Ok s /\
    Sum.bytes s = Raise UnknownDtypeError /\ Sum.flops s = Ok 32.
Proof.
  assert (H : [4; 8] <> []) by discriminate.
  exact (proj1 (unknown_width_at_nested_level "Tensor" "torch.complex64"
                  [4; 8] VNone 1 UnknownDtypeError eq_refl H eq_refl)).
Defined.

(** ** Further properties of the producer *)

Lemma foo_arg_app (name : string) (arg : pyval) :
  forall acc,
    argMarker.foo_arg name arg acc
    = (acc ++ argMarker.foo_arg name arg [])%list.
Proof.
  induction arg as [ z | f | b | | s | l IH | l IH | d IH
                   | size dtype item _ | shape dtype | n ]
    using pyval_nested_ind; intros acc;
    try reflexivity; try (cbn; rewrite app_nil_r; reflexivity).
  - cbn [argMarker.foo_arg]. destruct (argMarker.empty_or_scalars l).
    + reflexivity.
    + revert acc. induction IH as [ | x l Hx _ IHl]; intros acc; cbn.
      * rewrite app_nil_r. reflexivity.
      * rewrite IHl. rewrite (IHl (argMarker.foo_arg name x [])).
        rewrite Hx. rewrite app_assoc. reflexivity.
  - cbn [argMarker.foo_arg]. destruct (argMarker.empty_or_scalars l).
    + reflexivity.
    + revert acc. induction IH as [ | x l Hx _ IHl]; intros acc; cbn.
      * rewrite app_nil_r. reflexivity.
      * rewrite IHl. rewrite (IHl (argMarker.foo_arg name x [])).
        rewrite Hx. rewrite app_assoc. reflexivity.
  - cbn [argMarker.foo_arg]. destruct size; reflexivity.
Qed.

Lemma foo_cons (name : string) (x : pyval) (args acc : list pyval) :
  argMarker.foo (x :: args) name acc
  = (acc ++ argMarker.foo_arg name x [] ++ argMarker.foo args name [])%list.
Proof.
  unfold argMarker.foo. cbn [fold_left].
  revert x acc. induction args as [ | y args IH]; intros x acc; cbn.
  - rewrite app_nil_r. apply foo_arg_app.
  - rewrite IH. rewrite (IH y []). rewrite (foo_arg_app name x acc).
    cbn. rewrite <- app_assoc. reflexivity.
Qed.

Lemma foo_app (name : string) (args acc : list pyval) :
  argMarker.foo args name acc = (acc ++ argMarker.foo args name [])%list.
Proof.
  destruct args as [ | x args].
  - cbn. rewrite app_nil_r. reflexivity.
  - rewrite foo_cons. rewrite (foo_cons name x args []). reflexivity.
Qed.

Lemma foo_arg_described (name : string) (arg : pyval) :
  Forall (described_as name) (argMarker.foo_arg name arg []).
Proof.
  induction arg as [ z | f | b | | s | l IH | l IH | d IH
                   | size dtype item _ | shape dtype | n ]
    using pyval_nested_ind;
    try (constructor; [ split; [ reflexivity | eexists; reflexivity ]
                      | constructor ]);
    try constructor.
  - cbn [argMarker.foo_arg]. destruct (argMarker.empty_or_scalars l).
    + constructor; [ split; [ reflexivity | eexists; reflexivity ]
                   | constructor ].
    + change (Forall (described_as name) (argMarker.foo l name [])).
      induction IH as [ | x l Hx _ IHl]; [ constructor | ].
      rewrite foo_cons. cbn [app]. apply Forall_app. split; assumption.
  - cbn [argMarker.foo_arg]. destruct (argMarker.empty_or_scalars l).
    + constructor; [ split; [ reflexivity | eexists; reflexivity ]
                   | constructor ].
    + change (Forall (described_as name) (argMarker.foo l name [])).
      induction IH as [ | x l Hx _ IHl]; [ constructor | ].
      rewrite foo_cons. cbn [app]. apply Forall_app. split; assumption.
  - cbn [argMarker.foo_arg]. destruct size;
      (constructor; [ split; [ reflexivity | eexists; reflexivity ]
                    | constructor ]).
Qed.

Lemma foo_described (name : string) (args : list pyval) :
  Forall (described_as name) (argMarker.foo args name []).
Proof.
  induction args as [ | x args IH]; [ constructor | ].
  rewrite foo_cons. cbn [app]. apply Forall_app.
  split; [ apply foo_arg_described | exact IH ].
Qed.

(** X6.  [foo] only appends: what it had written before stays in place,
    and what it adds does not depend on it.  Every descriptor it adds is
    a dictionary whose name entry is the name it was given and whose type
    entry is a string. *)
Theorem foo_appends_descriptors
  (args : list pyval) (name : string) (acc : list pyval) :
  argMarker.foo args name acc = (acc ++ argMarker.foo args name [])%list /\
  Forall (described_as name) (argMarker.foo args name []).
Proof. split; [ apply foo_app | apply foo_described ]. Qed.

Lemma filterM_app {A} (p : A -> result bool) (l1 l2 r1 r2 : list A) :
  filterM p l1 = Ok r1 -> filterM p l2 = Ok r2 ->
  filterM p (l1 ++ l2) = Ok (r1 ++ r2)%list.
Proof.
  revert r1. induction l1 as [ | a l1 IH]; intros r1 H1 H2; cbn in *.
  - injection H1 as <-. exact H2.
  - destruct (p a) as [b | e]; [ | discriminate H1 ]. cbn [bind] in *.
    destruct (filterM p l1) as [r | e]; [ | discriminate H1 ].
    cbn [bind] in *. injection H1 as <-.
    rewrite (IH r eq_refl H2). cbn [bind]. destruct b; reflexivity.
Qed.

(** Filtering descriptors that are all written under [name]. *)
Lemma filterM_described (name s : string) (ds : list pyval) :
  Forall (described_as name) ds ->
  filterM (name_is s) ds = Ok (if String.eqb name s then ds else []).
Proof.
  induction 1 as [ | desc ds [Hname _] _ IH]; cbn.
  - destruct (String.eqb name s); reflexivity.
  - unfold name_is at 1. rewrite Hname. cbn [bind eq_str]. rewrite IH.
    cbn [bind]. destruct (String.eqb name s); reflexivity.
Qed.

Lemma descriptors_split
  (mod_name op : string) (args : list pyval) (kwargs : list (string * pyval)) :
  descriptors mod_name op args kwargs
  = (argMarker.foo args "" []
     ++ flat_map (fun kv => argMarker.foo [snd kv] (fst kv) []) kwargs)%list.
Proof.
  unfold descriptors. generalize (argMarker.foo args "" []).
  induction kwargs as [ | [k v] kwargs IH]; intros acc;
    cbn [fold_left flat_map fst snd].
  - rewrite app_nil_r. reflexivity.
  - rewrite IH. rewrite (foo_app k [v] acc). rewrite <- app_assoc.
    reflexivity.
Qed.

(** X7.  In the record of a call the descriptors of the positional
    arguments come first, in order, followed by those of the keyword
    arguments in the order of the keywords; and, no keyword being empty,
    filtering the descriptors on the empty name - as the Mean constructor
    does - raises nothing and keeps exactly the positional ones. *)
Theorem positional_descriptors_filtered
  (mod_name op : string) (args : list pyval) (kwargs : list (string * pyval))
  (Hkeys : forallb (fun kv => negb (String.eqb (fst kv) "")) kwargs = true) :
  getitem (argMarker.cadena mod_name op args kwargs) "args"
  = Ok (VList (descriptors mod_name op args kwargs)) /\
  descriptors mod_name op args kwargs
  = (argMarker.foo args "" []
     ++ flat_map (fun kv => argMarker.foo [snd kv] (fst kv) []) kwargs)%list /\
  filterM (name_is "") (descriptors mod_name op args kwargs)
  = Ok (argMarker.foo args "" []).
Proof.
  split; [ reflexivity | ]. split; [ apply descriptors_split | ].
  rewrite descriptors_split.
  rewrite <- (app_nil_r (argMarker.foo args "" [])) at 2.
  apply filterM_app.
  - rewrite (filterM_described "" "" _ (foo_described "" args)).
    reflexivity.
  - induction kwargs as [ | [k v] kwargs IH]; [ reflexivity | ].
    cbn in Hkeys. apply andb_prop in Hkeys as [Hk Hkeys].
    cbn [flat_map fst snd].
    refine (filterM_app _ (argMarker.foo [v] k []) _ [] [] _ (IH Hkeys)).
    rewrite (filterM_described k "" _ (foo_described k [v])).
    apply negb_true_iff in Hk. rewrite Hk. reflexivity.
Qed.

(** [torch.mean(x, dim=1)]: one positional descriptor is kept. *)
Lemma positional_descriptors_filtered_witness :
  filterM (name_is "")
          (descriptors "torch" "mean" [tensor_f32_4x8] [("dim", VInt 1)])
  = Ok [VDict [("name", VStr ""); ("type", VStr "tensor");
               ("shape", VTuple [VInt 4; VInt 8]);
               ("dtype", VStr "float32")]].
Proof.
  exact (proj2 (proj2 (positional_descriptors_filtered
                         "torch" "mean" [tensor_f32_4x8] [("dim", VInt 1)]
                         eq_refl))).
Defined.

(** X8.  The record of a call whose arguments are all capturable - its
    captured sequences hold plain values and its zero-dimensional
    tensors hold numbers - reads back as the dictionary the producer
    printed, with the module, the operator and the descriptors it wrote;
    printing what was read gives the same text again. *)
Theorem producer_record_round_trip
  (mod_name op : string) (args : list pyval) (kwargs : list (string * pyval))
  (Hargs : forallb capturable args = true)
  (Hkwargs : forallb (fun kv => capturable (snd kv)) kwargs = true) :
  exists mk,
    eval (argMarker.argMarker mod_name op args kwargs) = Ok mk /\
    getitem mk "mod" = Ok (VStr mod_name) /\
    getitem mk "op" = Ok (VStr op) /\
    getitem mk "args" = Ok (VList (descriptors mod_name op args kwargs)) /\
    str mk = argMarker.argMarker mod_name op args kwargs.
Proof.
  exists (argMarker.cadena mod_name op args kwargs).
  split; [ apply capturable_round_trip; assumption | ].
  repeat split.
Qed.

(** [torch.sum(x, [0, 1], keepdim=True)] reads back. *)
Lemma producer_record_round_trip_witness :
  exists mk,
    eval (argMarker.argMarker "torch" "sum"
            [tensor_f32_4x8; VList [VInt 0; VInt 1]]
            [("keepdim", VBool true)]) = Ok mk /\
    getitem mk "op" = Ok (VStr "sum").
Proof.
  destruct (producer_record_round_trip "torch" "sum"
              [tensor_f32_4x8; VList [VInt 0; VInt 1]]
              [("keepdim", VBool true)] eq_refl eq_refl)
    as (mk & Hev & _ & Hop & _).
  exists mk. split; [ exact Hev | exact Hop ].
Defined.

(** *** Sequences holding a float that is not finite *)

Lemma special_raises (v : pyval) :
  special v = true -> eval_expr (repr v) = Raise NameError.
Proof.
  destruct v as [ | [ | | | ] | | | | | | | | | ];
    intros H; try discriminate H; reflexivity.
Qed.

Lemma scalar_not_special_plain (v : pyval) :
  argMarker.isscalar v = true -> special v = false -> plain v = true.
Proof.
  destruct v as [ | [ | | | ] | | | | | | | | | ];
    intros H1 H2; try discriminate H1; try discriminate H2; reflexivity.
Qed.

Lemma scalars_no_other (l : list pyval) :
  forallb argMarker.isscalar l = true ->
  existsb has_other (map repr l) = false.
Proof.
  induction l as [ | v l IH]; cbn; [ reflexivity | ].
  intros H. apply andb_prop in H as [Hv Hl]. rewrite (IH Hl).
  destruct v as [ | [ | | | ] | | | | | | | | | ];
    try discriminate Hv; reflexivity.
Qed.

Lemma scalars_raise (l : list pyval) :
  forallb argMarker.isscalar l = true ->
  existsb special l = true ->
  eval_items (map repr l) = Raise NameError.
Proof.
  induction l as [ | v l IH]; cbn [forallb existsb map];
    intros Hs Hx; [ discriminate Hx | ].
  apply andb_prop in Hs as [Hv Hl].
  destruct (special v) eqn:E.
  - cbn. rewrite (special_raises v E). reflexivity.
  - cbn in Hx. cbn [eval_items].
    rewrite (eval_expr_repr v (scalar_not_special_plain v Hv E)).
    cbn [bind]. fold eval_items. rewrite (IH Hl Hx). reflexivity.
Qed.

Lemma eval_items_raise_after (ds : list pyval) (x : expr) (rest : list expr)
      (e : exn) :
  forallb plain ds = true ->
  eval_expr x = Raise e ->
  eval_items (map repr ds ++ x :: rest) = Raise e.
Proof.
  intros Hds Hx. induction ds as [ | v ds IH]; cbn.
  - rewrite Hx. reflexivity.
  - cbn in Hds. apply andb_prop in Hds as [Hv Hds].
    rewrite (eval_expr_repr v Hv). cbn [bind]. fold eval_items.
    rewrite (IH Hds). reflexivity.
Qed.

Lemma plain_no_other (ds : list pyval) :
  forallb plain ds = true -> existsb has_other (map repr ds) = false.
Proof.
  induction ds as [ | v ds IH]; cbn; [ reflexivity | ].
  intros H. apply andb_prop in H as [Hv Hds].
  rewrite (has_other_repr v Hv), (IH Hds). reflexivity.
Qed.

Lemma foo_app_args (name : string) (l1 l2 : list pyval) :
  argMarker.foo (l1 ++ l2) name []
  = (argMarker.foo l1 name [] ++ argMarker.foo l2 name [])%list.
Proof.
  induction l1 as [ | x l1 IH]; [ reflexivity | ].
  cbn [app]. rewrite !foo_cons, IH. cbn [app].
  rewrite <- app_assoc. reflexivity.
Qed.

Lemma keyword_descriptors_plain (kwargs : list (string * pyval)) :
  forallb (fun kv => capturable (snd kv)) kwargs = true ->
  forallb plain
    (flat_map (fun kv => argMarker.foo [snd kv] (fst kv) []) kwargs) = true.
Proof.
  induction kwargs as [ | [k v] kwargs IH]; [ reflexivity | ].
  cbn [forallb flat_map fst snd]. intros H.
  apply andb_prop in H as [Hv Hk].
  rewrite forallb_app, (IH Hk), andb_true_r.
  apply foo_plain; [ cbn; rewrite Hv | ]; reflexivity.
Qed.

(** X9.  A captured list or tuple of scalars that holds +infinity,
    -infinity or not-a-number makes the record unreadable: whatever
    capturable arguments stand before and after it, evaluating the
    record raises NameError. *)
Theorem special_in_sequence_not_readable
  (mod_name op : string) (pre post l : list pyval) (is_list : bool)
  (kwargs : list (string * pyval))
  (Hpre : forallb capturable pre = true)
  (Hpost : forallb capturable post = true)
  (Hkwargs : forallb (fun kv => capturable (snd kv)) kwargs = true)
  (Hscalars : forallb argMarker.isscalar l = true)
  (Hspecial : existsb special l = true) :
  eval (argMarker.argMarker mod_name op
          (pre ++ (if is_list then VList l else VTuple l) :: post) kwargs)
  = Raise NameError.
Proof.
  set (sq := if is_list then VList l else VTuple l).
  set (sd := VDict [("name", VStr "");
                    ("type", VStr (if is_list then "list" else "tuple"));
                    ("value", sq)]).
  assert (Hhead : argMarker.empty_or_scalars l = true).
  { destruct l as [ | v l]; [ discriminate Hspecial | ].
    cbn in Hscalars. apply andb_prop in Hscalars as [Hv _]. exact Hv. }
  assert (Hsd : argMarker.foo_arg "" sq [] = [sd]).
  { subst sq sd. destruct is_list; cbn [argMarker.foo_arg];
      rewrite Hhead; reflexivity. }
  assert (Hall : descriptors mod_name op (pre ++ sq :: post) kwargs
                 = (argMarker.foo pre "" []
                    ++ sd :: (argMarker.foo post "" []
                              ++ flat_map
                                   (fun kv =>
                                      argMarker.foo [snd kv] (fst kv) [])
                                   kwargs))%list).
  { rewrite descriptors_split, foo_app_args, foo_cons, Hsd.
    cbn [app]. rewrite <- app_assoc. reflexivity. }
  assert (Hraise : eval_expr (repr sd) = Raise NameError).
  { subst sd sq. destruct is_list; cbn [repr eval_expr map fst snd const_val
                                        bind dict_set];
      fold eval_items; rewrite (scalars_raise l Hscalars Hspecial);
      reflexivity. }
  assert (Hother : has_other (repr sd) = false).
  { subst sd sq. destruct is_list; cbn [repr has_other map fst snd existsb];
      rewrite (scalars_no_other l Hscalars); reflexivity. }
  pose proof (foo_plain pre "" [] Hpre eq_refl) as Hp1.
  pose proof (foo_plain post "" [] Hpost eq_refl) as Hp2.
  pose proof (keyword_descriptors_plain kwargs Hkwargs) as Hp3.
  unfold eval, argMarker.argMarker, str, argMarker.cadena.
  change (fold_left (fun acc kv => argMarker.foo [snd kv] (fst kv) acc) kwargs
            (argMarker.foo (pre ++ sq :: post) "" []))
    with (descriptors mod_name op (pre ++ sq :: post) kwargs).
  rewrite Hall.
  cbn [repr map fst snd has_other existsb].
  rewrite map_app. cbn [map]. rewrite existsb_app. cbn [existsb].
  rewrite (plain_no_other _ Hp1), Hother, map_app, existsb_app.
  rewrite (plain_no_other _ Hp2), (plain_no_other _ Hp3).
  cbn [orb]. cbn [eval_expr bind const_val dict_set]. fold eval_items.
  rewrite (eval_items_raise_after _ _ _ NameError Hp1 Hraise).
  reflexivity.
Qed.

(** A call whose second argument is the list [0.5, float('nan')]. *)
Lemma special_in_sequence_not_readable_witness :
  eval (argMarker.argMarker "torch" "full"
          [VTuple [VInt 2; VInt 3]; VList [VFloat (FFin 1 (-1)); VFloat FNaN];
           VBool true] [("mode", VStr "x")])
  = Raise NameError.
Proof.
  exact (special_in_sequence_not_readable "torch" "full"
           [VTuple [VInt 2; VInt 3]] [VBool true]
           [VFloat (FFin 1 (-1)); VFloat FNaN] true [("mode", VStr "x")]
           eq_refl eq_refl eq_refl eq_refl eq_refl).
Defined.

(** *** The dtype written for a tensor *)

Lemma last_part_no_dot (t cur : string) :
  no_dot t = true -> argMarker.last_part t cur = cur ++ t.
Proof.
  revert cur. induction t as [ | c t IH]; intros cur H; cbn in *.
  - induction cur as [ | a cur IHc]; cbn; [ | rewrite <- IHc ]; reflexivity.
  - apply andb_prop in H as [Hc Ht]. apply negb_true_iff in Hc.
    rewrite Hc, (IH _ Ht).
    induction cur as [ | a cur IHc]; cbn; [ | rewrite IHc ]; reflexivity.
Qed.

Lemma last_part_after_dot (s t cur : string) :
  argMarker.last_part (s ++ String "."%char t) cur
  = argMarker.last_part t "".
Proof.
  revert cur. induction s as [ | c s IH]; intros cur; cbn.
  - reflexivity.
  - destruct (Ascii.eqb c "."%char); apply IH.
Qed.

Lemma no_dot_app (a b : string) :
  no_dot a = true -> no_dot b = true -> no_dot (a ++ b) = true.
Proof.
  induction a as [ | c a IH]; cbn; intros Ha Hb; [ exact Hb | ].
  apply andb_prop in Ha as [Hc Ha]. rewrite Hc, (IH Ha Hb). reflexivity.
Qed.

Lemma last_part_has_no_dot (s cur : string) :
  no_dot cur = true -> no_dot (argMarker.last_part s cur) = true.
Proof.
  revert cur. induction s as [ | c s IH]; intros cur H; cbn.
  - exact H.
  - destruct (Ascii.eqb c "."%char) eqn:E; apply IH; [ reflexivity | ].
    apply no_dot_app; [ exact H | ]. cbn. rewrite E. reflexivity.
Qed.

(** X10.  The dtype written for a tensor or an array is what follows the
    last dot of the printed dtype: it holds no dot, a printed dtype
    without a dot is written as it is, and of a printed dtype that ends
    in a dot and a dotless word, that word is written. *)
Theorem dtype_is_last_component (s t : string) (Ht : no_dot t = true) :
  no_dot (argMarker.last_part s "") = true /\
  argMarker.last_part t "" = t /\
  argMarker.last_part (s ++ String "."%char t) "" = t.
Proof.
  split; [ apply last_part_has_no_dot; reflexivity | ].
  split; [ apply (last_part_no_dot t "" Ht) | ].
  rewrite last_part_after_dot. apply (last_part_no_dot t "" Ht).
Qed.

(** The printed dtype torch.float32 is written as float32. *)
Lemma dtype_is_last_component_witness :
  argMarker.last_part "torch.float32" "" = "float32".
Proof.
  exact (proj2 (proj2 (dtype_is_last_component "torch" "float32" eq_refl))).
Defined.

(** ** The patches of nvmarker.py *)

Lemma getattr_fresh (pre suf : nvmarker.namespace) (f : string)
      (a : nvmarker.attr) :
  ~ In f (nvmarker.dir pre) ->
  nvmarker.getattr (pre ++ (f, a) :: suf)%list f = Some a.
Proof.
  induction pre as [ | [f' a'] pre IH]; cbn; intros H.
  - rewrite String.eqb_refl. reflexivity.
  - destruct (String.eqb f f') eqn:E.
    + apply String.eqb_eq in E. subst f'. exfalso. apply H. left; reflexivity.
    + apply IH. intros Hin. apply H. right; exact Hin.
Qed.

Lemma setattr_fresh (pre suf : nvmarker.namespace) (f : string)
      (a w : nvmarker.attr) :
  ~ In f (nvmarker.dir pre) ->
  nvmarker.setattr (pre ++ (f, a) :: suf)%list f w = (pre ++ (f, w) :: suf)%list.
Proof.
  induction pre as [ | [f' a'] pre IH]; cbn; intros H.
  - rewrite String.eqb_refl. reflexivity.
  - destruct (String.eqb f f') eqn:E.
    + apply String.eqb_eq in E. subst f'. exfalso. apply H. left; reflexivity.
    + rewrite IH; [ reflexivity | ]. intros Hin. apply H. right; exact Hin.
Qed.

Lemma dir_wrap (cls : nvmarker.namespace) :
  nvmarker.dir (map wrap cls) = nvmarker.dir cls.
Proof.
  unfold nvmarker.dir. rewrite map_map. reflexivity.
Qed.

(** One turn of the loop of [patchClass]. *)
Lemma patch_step (pre suf : nvmarker.namespace) (f : string)
      (a : nvmarker.attr) :
  ~ In f (nvmarker.dir pre) ->
  (b <- nvmarker.isfunc (pre ++ (f, a) :: suf)%list f ;;
   if b then nvmarker.add_wrapper (pre ++ (f, a) :: suf)%list f
   else Ok (pre ++ (f, a) :: suf)%list)
  = Ok (pre ++ wrap (f, a) :: suf)%list.
Proof.
  intros H. unfold nvmarker.add_wrapper, nvmarker.isfunc, wrap, wrappable.
  rewrite (getattr_fresh pre suf f a H). cbn [fst snd].
  destruct (nvmarker.underscored f); [ reflexivity | ].
  destruct (existsb (String.eqb f) nvmarker.ignore); [ reflexivity | ].
  cbn [negb andb bind]. fold (callable a).
  destruct (callable a); cbn [bind assert]; [ | reflexivity ].
  rewrite (setattr_fresh pre suf f a _ H). reflexivity.
Qed.

Lemma patch_loop (suf pre : nvmarker.namespace) :
  NoDup (nvmarker.dir (pre ++ suf)%list) ->
  fold_left
    (fun acc f =>
       cls' <- acc ;;
       b <- nvmarker.isfunc cls' f ;;
       if b then nvmarker.add_wrapper cls' f else Ok cls')
    (nvmarker.dir suf) (Ok (pre ++ suf)%list)
  = Ok (pre ++ map wrap suf)%list.
Proof.
  revert pre. induction suf as [ | [f a] suf IH]; intros pre Hnd.
  - reflexivity.
  - cbn [nvmarker.dir map fst fold_left bind].
    assert (Hf : ~ In f (nvmarker.dir pre)).
    { unfold nvmarker.dir in Hnd. rewrite map_app in Hnd.
      cbn in Hnd. apply NoDup_remove_2 in Hnd.
      intros Hin. apply Hnd. apply in_or_app. left. exact Hin. }
    match goal with
    | |- fold_left _ _ ?x = _ =>
        replace x with (Ok (A := nvmarker.namespace)
                           ((pre ++ [wrap (f, a)]) ++ suf)%list)
          by (rewrite <- app_assoc; symmetry; exact (patch_step pre suf f a Hf))
    end.
    change (map fst suf) with (nvmarker.dir suf).
    rewrite IH.
    + rewrite <- app_assoc. reflexivity.
    + unfold nvmarker.dir in *. rewrite !map_app in *. cbn in *.
      rewrite <- app_assoc. exact Hnd.
Qed.

Lemma patchClass_map (cls : nvmarker.namespace) :
  NoDup (nvmarker.dir cls) -> nvmarker.patchClass cls = Ok (map wrap cls).
Proof. intros H. exact (patch_loop cls [] H). Qed.

(** X11.  Patching a module or class whose attributes have distinct
    names raises nothing and keeps the names: each callable attribute is
    replaced by its wrapper, unless its name is in the ignore list or is
    an underscore followed by a character other than an underscore; the
    name made of one underscore alone is not excluded.  Every other
    attribute is left as it is. *)
Theorem patchClass_wraps (cls : nvmarker.namespace)
  (Hnames : NoDup (nvmarker.dir cls)) :
  nvmarker.patchClass cls = Ok (map wrap cls) /\
  nvmarker.dir (map wrap cls) = nvmarker.dir cls /\
  (forall f a, In (f, a) cls ->
     nvmarker.getattr (map wrap cls) f
     = Some (if wrappable f a then nvmarker.Wrapper a else a)).
Proof.
  split; [ exact (patchClass_map cls Hnames) | ].
  split; [ apply dir_wrap | ].
  intros f a Hin. apply in_split in Hin as (pre & suf & ->).
  rewrite map_app. cbn [map].
  change (wrap (f, a))
    with (f, if wrappable f a then nvmarker.Wrapper a else a).
  apply getattr_fresh. rewrite dir_wrap.
  unfold nvmarker.dir in Hnames. rewrite map_app in Hnames.
  cbn in Hnames. apply NoDup_remove_2 in Hnames.
  intros H. apply Hnames. apply in_or_app. left. exact H.
Qed.

(** A class with a method descriptor, a private helper, an ignored
    method, a special method, a function named by one underscore and a
    data attribute: the first, the fourth and the fifth are wrapped. *)
Lemma patchClass_wraps_witness :
  nvmarker.patchClass
    [("add", nvmarker.MethodDescriptor); ("_add", nvmarker.MethodDescriptor);
     ("size", nvmarker.MethodDescriptor); ("__add__", nvmarker.Function);
     ("_", nvmarker.Function); ("T", nvmarker.Other)]
  = Ok [("add", nvmarker.Wrapper nvmarker.MethodDescriptor);
        ("_add", nvmarker.MethodDescriptor);
        ("size", nvmarker.MethodDescriptor);
        ("__add__", nvmarker.Wrapper nvmarker.Function);
        ("_", nvmarker.Wrapper nvmarker.Function);
        ("T", nvmarker.Other)].
Proof.
  refine (proj1 (patchClass_wraps _ _)).
  repeat constructor; cbn; intuition discriminate.
Defined.

(** X12.  Patching is not idempotent: patching a class a second time
    wraps every wrapper again. *)
Theorem patchClass_twice (cls once twice : nvmarker.namespace)
  (Hnames : NoDup (nvmarker.dir cls))
  (Honce : nvmarker.patchClass cls = Ok once)
  (Htwice : nvmarker.patchClass once = Ok twice) :
  forall f a,
    In (f, a) cls -> wrappable f a = true ->
    nvmarker.getattr once f = Some (nvmarker.Wrapper a) /\
    nvmarker.getattr twice f
    = Some (nvmarker.Wrapper (nvmarker.Wrapper a)).
Proof.
  intros f a Hin Hw.
  assert (E1 : once = map wrap cls).
  { rewrite (patchClass_map cls Hnames) in Honce.
    injection Honce as <-. reflexivity. }
  assert (Hnames1 : NoDup (nvmarker.dir once))
    by (rewrite E1, dir_wrap; exact Hnames).
  assert (E2 : twice = map wrap once).
  { rewrite (patchClass_map once Hnames1) in Htwice.
    injection Htwice as <-. reflexivity. }
  assert (Hget : forall ns g b,
             NoDup (nvmarker.dir ns) -> In (g, b) ns ->
             nvmarker.getattr ns g = Some b).
  { intros ns g b Hnd Hb. apply in_split in Hb as (pre & suf & ->).
    apply getattr_fresh. unfold nvmarker.dir in Hnd.
    rewrite map_app in Hnd. cbn in Hnd. apply NoDup_remove_2 in Hnd.
    intros H. apply Hnd. apply in_or_app. left. exact H. }
  assert (Hin1 : In (f, nvmarker.Wrapper a) once).
  { rewrite E1. apply in_map_iff. exists (f, a). split; [ | exact Hin ].
    unfold wrap. cbn [fst snd]. rewrite Hw. reflexivity. }
  split; [ exact (Hget once f _ Hnames1 Hin1) | ].
  apply Hget; [ rewrite E2, dir_wrap; exact Hnames1 | ].
  rewrite E2. apply in_map_iff. exists (f, nvmarker.Wrapper a).
  split; [ | exact Hin1 ].
  unfold wrap, wrappable in *. cbn [fst snd].
  apply andb_prop in Hw as [Hw _]. rewrite Hw. reflexivity.
Qed.

(** After two patches the method add is a wrapper of its wrapper. *)
Lemma patchClass_twice_witness :
  nvmarker.getattr
    [("add", nvmarker.Wrapper (nvmarker.Wrapper nvmarker.MethodDescriptor));
     ("_add", nvmarker.MethodDescriptor)] "add"
  = Some (nvmarker.Wrapper (nvmarker.Wrapper nvmarker.MethodDescriptor)).
Proof.
  refine (proj2 (patchClass_twice
                   [("add", nvmarker.MethodDescriptor);
                    ("_add", nvmarker.MethodDescriptor)]
                   _ _ _ eq_refl eq_refl
                   "add" nvmarker.MethodDescriptor
                   (or_introl eq_refl) eq_refl)).
  repeat constructor; cbn; intuition discriminate.
Defined.

(** *** The wrappers and the open ranges *)

(** X13.  A wrapped function is called with the argument marker, the
    trace marker and, for a module with a string representation, the
    module marker between them on top of the open ranges.  If it returns
    with these ranges as it found them, the wrapper returns its value
    with the ranges it was called with; if it raises, the exception
    passes through the wrapper and the ranges stay as the function left
    them, nothing being ended. *)
Theorem wrapper_func_ranges
  (func : nvmarker.callee) (extra_repr : pyval -> string) (s : bool)
  (mod_name fn_name : string) (stack : list nvmarker.FrameSummary)
  (args : list pyval) (kwargs : list (string * pyval))
  (st : nvmarker.ranges)
  (Hforward : s = true -> fn_name = "forward" /\ args <> []) :
  let trace := nvmarker.Text (nvmarker.traceMarker stack) in
  let module :=
    nvmarker.Text
      (str (VDict [("mod", VStr mod_name);
                   ("strRepr", VStr (extra_repr (hd VNone args)))])) in
  let cadena :=
    nvmarker.Text (argMarker.argMarker mod_name fn_name args kwargs) in
  let inside :=
    (cadena :: (if s then [module] else []) ++ trace :: st)%list in
  (forall r,
     func args kwargs inside = (Ok r, inside) ->
     nvmarker.wrapper_func func extra_repr s mod_name fn_name stack
                           args kwargs st
     = (Ok r, st)) /\
  (forall e st',
     func args kwargs inside = (Raise e, st') ->
     nvmarker.wrapper_func func extra_repr s mod_name fn_name stack
                           args kwargs st
     = (Raise e, st')).
Proof.
  intros trace module cadena inside. subst trace module cadena inside.
  unfold nvmarker.wrapper_func, nvmarker.modMarker,
    nvmarker.range_push, nvmarker.range_pop.
  cbv zeta. destruct s.
  - destruct (Hforward eq_refl) as [-> Hargs].
    destruct args as [ | a0 args]; [ contradiction | ].
    rewrite String.eqb_refl. cbn [assert bind].
    replace (0 <? Z.of_nat (List.length (a0 :: args))) with true
      by (symmetry; apply Z.ltb_lt; cbn [List.length]; lia).
    cbn [assert bind app tl hd].
    split; [ intros r H | intros e st' H ]; rewrite H; reflexivity.
  - cbn [app tl].
    split; [ intros r H | intros e st' H ]; rewrite H; reflexivity.
Qed.

(** [torch.add(x, x)] with a function that returns None and touches no
    range: the ranges are those before the call. *)
Lemma wrapper_func_ranges_witness :
  nvmarker.wrapper_func (fun _ _ st => (Ok VNone, st)) (fun _ => "")
                        false "torch" "add" []
                        [tensor_f32_4x8; tensor_f32_4x8] [] []
  = (Ok VNone, []).
Proof.
  refine (proj1 (wrapper_func_ranges (fun _ _ st => (Ok VNone, st))
                   (fun _ => "") false "torch" "add" []
                   [tensor_f32_4x8; tensor_f32_4x8] [] [] _) VNone eq_refl).
  discriminate.
Defined.

(** X14.  When the module has a string representation, a wrapper put
    around a function that is not forward, or called without arguments,
    raises AssertionError on every call: the wrapped function is not
    called and the range of the trace marker is left open. *)
Theorem wrapper_func_not_forward
  (func : nvmarker.callee) (extra_repr : pyval -> string)
  (mod_name fn_name : string) (stack : list nvmarker.FrameSummary)
  (args : list pyval) (kwargs : list (string * pyval))
  (st : nvmarker.ranges)
  (Hbad : fn_name <> "forward" \/ args = []) :
  nvmarker.wrapper_func func extra_repr true mod_name fn_name stack
                        args kwargs st
  = (Raise AssertionError,
     nvmarker.Text (nvmarker.traceMarker stack) :: st).
Proof.
  unfold nvmarker.wrapper_func, nvmarker.modMarker.
  destruct (String.eqb fn_name "forward") eqn:E.
  - destruct Hbad as [H | ->].
    + apply String.eqb_eq in E. contradiction.
    + reflexivity.
  - reflexivity.
Qed.

(** A wrapper around the method flatten_parameters of a module with a
    string representation. *)
Lemma wrapper_func_not_forward_witness :
  nvmarker.wrapper_func (fun _ _ st => (Ok VNone, st)) (fun _ => "")
                        true "LSTM" "flatten_parameters" []
                        [VObject "LSTM"] [] []
  = (Raise AssertionError, [nvmarker.Text (nvmarker.traceMarker [])]).
Proof.
  apply wrapper_func_not_forward. left. discriminate.
Defined.

(** X15.  A function wrapped twice, as after two patches of a class
    without a string representation, is called under two argument
    markers and two trace markers, and the ranges are restored when it
    returns. *)
Theorem wrapper_func_nested
  (func : nvmarker.callee) (extra_repr : pyval -> string)
  (mod_name fn_name : string) (inner outer : list nvmarker.FrameSummary)
  (args : list pyval) (kwargs : list (string * pyval))
  (st : nvmarker.ranges) (r : pyval) :
  let cadena :=
    nvmarker.Text (argMarker.argMarker mod_name fn_name args kwargs) in
  let inside :=
    cadena :: nvmarker.Text (nvmarker.traceMarker inner)
    :: cadena :: nvmarker.Text (nvmarker.traceMarker outer) :: st in
  func args kwargs inside = (Ok r, inside) ->
  nvmarker.wrapper_func
    (nvmarker.wrapper_func func extra_repr false mod_name fn_name inner)
    extra_repr false mod_name fn_name outer args kwargs st
  = (Ok r, st).
Proof.
  intros cadena inside H. subst cadena inside.
  unfold nvmarker.wrapper_func, nvmarker.range_push, nvmarker.range_pop.
  cbv zeta. rewrite H. reflexivity.
Qed.

Lemma wrapper_func_nested_witness :
  nvmarker.wrapper_func
    (nvmarker.wrapper_func (fun _ _ st => (Ok (VInt 7), st)) (fun _ => "")
                           false "torch" "add" [])
    (fun _ => "") false "torch" "add" [] [tensor_f32_4x8] [] []
  = (Ok (VInt 7), []).
Proof.
  exact (wrapper_func_nested (fun _ _ st => (Ok (VInt 7), st)) (fun _ => "")
           "torch" "add" [] [] [tensor_f32_4x8] [] [] (VInt 7) eq_refl).
Defined.

(** One call of [always_benchmark_wrapper]: the flag after it, and the
    ranges the patched function is started with. *)
Lemma always_benchmark_step
  (old_fn : nvmarker.callee) (benchmark : bool) (args : list pyval)
  (kwargs : list (string * pyval)) (reported : bool) (st : nvmarker.ranges) :
  let out :=
    nvmarker.always_benchmark_wrapper old_fn benchmark args kwargs
                                      reported st in
  let first := negb benchmark && negb reported in
  let started :=
    if first then config_message "cudnn_benchmark_disabled" :: st else st in
  fst (snd out) = (reported || negb benchmark) /\
  fst out = fst (old_fn args kwargs started) /\
  snd (snd out)
  = match old_fn args kwargs started with
    | (Ok _, st') => if first then tl st' else st'
    | (Raise _, st') => st'
    end.
Proof.
  unfold nvmarker.always_benchmark_wrapper,
    nvmarker.push_nvtx_model_config, nvmarker.range_push,
    nvmarker.range_pop, config_message.
  cbv zeta.
  destruct benchmark, reported; cbn [negb andb orb];
    match goal with
    | |- context [old_fn args kwargs ?s] =>
        destruct (old_fn args kwargs s) as [[v | e] st']
    end; repeat split.
Qed.

Lemma session_flags
  (old_fn : nvmarker.callee) (calls : list conv_call) :
  forall reported st,
    Forall (fun flags => fst flags = true -> snd flags = true)
           (session old_fn calls reported st) /\
    (List.length (filter reports (session old_fn calls reported st))
     <= (if reported then 0 else 1))%nat.
Proof.
  induction calls as [ | [benchmark [args kwargs]] calls IH];
    intros reported st; cbn [session].
  - split; [ constructor | destruct reported; cbn; lia ].
  - pose proof (always_benchmark_step old_fn benchmark args kwargs
                  reported st) as Hstep.
    cbv zeta in Hstep.
    destruct (nvmarker.always_benchmark_wrapper old_fn benchmark args kwargs
                reported st) as [out [reported' st']].
    cbn [fst snd] in Hstep. destruct Hstep as (Hflag & _ & _).
    destruct (IH reported' st') as [IHm IHc].
    split.
    + constructor; [ | exact IHm ]. cbn [fst snd]. intros ->.
      rewrite Hflag. reflexivity.
    + cbn [filter]. unfold reports at 1. cbn [fst snd].
      rewrite Hflag in *.
      destruct reported, benchmark; cbn in *; lia.
Qed.

(** X16.  Over any sequence of calls of the patched convolutions, and
    whether the calls return or raise, the flag once set stays set, and
    it goes from unset to set in at most one call.  That call - the
    first made with cudnn.benchmark off, the flag being unset - is the
    only one started under the range of the model configuration
    cudnn_benchmark_disabled; every other call is started with the
    ranges as they are. *)
Theorem benchmark_disabled_reported_once
  (old_fn : nvmarker.callee) (calls : list conv_call)
  (reported : bool) (st : nvmarker.ranges) :
  Forall (fun flags => fst flags = true -> snd flags = true)
         (session old_fn calls reported st) /\
  (List.length (filter reports (session old_fn calls reported st))
   <= 1)%nat /\
  (forall benchmark args kwargs reported0 st0,
     let out :=
       nvmarker.always_benchmark_wrapper old_fn benchmark args kwargs
                                         reported0 st0 in
     fst out
     = fst (old_fn args kwargs
              (if reports (reported0, fst (snd out))
               then config_message "cudnn_benchmark_disabled" :: st0
               else st0))).
Proof.
  destruct (session_flags old_fn calls reported st) as [Hm Hc].
  split; [ exact Hm | ].
  split; [ destruct reported; lia | ].
  intros benchmark args kwargs reported0 st0 out.
  destruct (always_benchmark_step old_fn benchmark args kwargs
              reported0 st0) as (Hflag & Hout & _).
  fold out in Hflag, Hout. rewrite Hout. unfold reports. cbn [fst snd].
  rewrite Hflag. destruct benchmark, reported0; reflexivity.
Qed.

(** *** The data loader *)

Lemma replay_app (e1 e2 : list nvmarker.event) (st : nvmarker.ranges) :
  nvmarker.replay (e1 ++ e2) st
  = let (seen1, mid) := nvmarker.replay e1 st in
    let (seen2, final) := nvmarker.replay e2 mid in
    ((seen1 ++ seen2)%list, final).
Proof.
  revert st. induction e1 as [ | [m | | x] e1 IH]; intros st; cbn.
  - destruct (nvmarker.replay e2 st). reflexivity.
  - apply IH.
  - apply IH.
  - rewrite IH. destruct (nvmarker.replay e1 st) as [seen1 mid].
    destruct (nvmarker.replay e2 mid). reflexivity.
Qed.

Lemma replay_loop
  (stacks : nat -> list nvmarker.FrameSummary) (cadena : expr)
  (items : list pyval) :
  forall k m1 m2 st,
    nvmarker.replay (nvmarker.new_iter_loop stacks cadena k items)
                    (m1 :: m2 :: st)
    = (map (fun x => (x, st)) items,
       match items with
       | [] => m1 :: m2 :: st
       | _ =>
           nvmarker.Text cadena
           :: nvmarker.Text
                (nvmarker.traceMarker (stacks (k + List.length items)%nat))
           :: st
       end).
Proof.
  induction items as [ | x items IH]; intros k m1 m2 st.
  - reflexivity.
  - cbn [nvmarker.new_iter_loop app nvmarker.replay nvmarker.range_pop
         nvmarker.range_push tl map].
    rewrite IH. destruct items as [ | y items].
    + cbn [List.length]. rewrite Nat.add_1_r. reflexivity.
    + cbn [List.length].
      replace (S k + S (List.length items))%nat
        with (k + S (S (List.length items)))%nat by lia.
      reflexivity.
Qed.

(** X17.  While the patched data loader is iterated, the two ranges it
    opens are closed at every yield - each item is handed over with the
    ranges as they were before the iteration - and they are closed when
    the iteration ends. *)
Theorem new_iter_ranges
  (stacks : nat -> list nvmarker.FrameSummary) (args : list pyval)
  (kwargs : list (string * pyval)) (items : list pyval)
  (st : nvmarker.ranges) :
  nvmarker.replay (nvmarker.new_iter stacks args kwargs items) st
  = (map (fun x => (x, st)) items, st).
Proof.
  unfold nvmarker.new_iter. cbv zeta.
  cbn [app nvmarker.replay nvmarker.range_push].
  rewrite replay_app, replay_loop.
  destruct items; cbn [nvmarker.replay nvmarker.range_pop tl];
    rewrite app_nil_r; reflexivity.
Qed.

(** *** Trace and module markers *)

Lemma map_nth_seq {A B} (f : A -> B) (d : A) (l : list A) :
  forall n, (n <= List.length l)%nat ->
    map (fun i => f (nth i l d)) (seq 0 n) = map f (firstn n l).
Proof.
  induction l as [ | a l IH]; intros n Hn.
  - cbn in Hn. assert (n = 0%nat) as -> by lia. reflexivity.
  - destruct n as [ | n]; [ reflexivity | ].
    cbn [seq map firstn nth]. f_equal.
    rewrite <- seq_shift, map_map. cbn [nth].
    apply IH. cbn in Hn. lia.
Qed.

Lemma strings_plain (l : list string) : forallb plain (map VStr l) = true.
Proof. induction l as [ | s l IH]; [ reflexivity | exact IH ]. Qed.

(** X18.  The trace marker lists the calls of the stack in order, the
    oldest first, each as file:line, leaving out the three newest -
    the wrapper, traceMarker and get_trace_marker themselves; a stack of
    three calls or fewer gives an empty list.  The marker reads back as
    the dictionary holding that list. *)
Theorem trace_marker_frames
  (frames newest : list nvmarker.FrameSummary)
  (Hnewest : List.length newest = 3%nat) :
  nvmarker.get_trace_marker (frames ++ newest)
  = map nvmarker.format_frame frames /\
  nvmarker.get_trace_marker newest = [] /\
  (forall stack, (List.length stack <= 3)%nat ->
                 nvmarker.get_trace_marker stack = []) /\
  eval (nvmarker.traceMarker (frames ++ newest))
  = Ok (VDict [("traceMarker",
                VList (map VStr (map nvmarker.format_frame frames)))]).
Proof.
  assert (H1 : nvmarker.get_trace_marker (frames ++ newest)
               = map nvmarker.format_frame frames).
  { unfold nvmarker.get_trace_marker.
    rewrite map_nth_seq by lia.
    rewrite length_app, Hnewest.
    replace (List.length frames + 3 - 3)%nat with (List.length frames)
      by lia.
    rewrite firstn_app, Nat.sub_diag, firstn_all. cbn [firstn].
    rewrite app_nil_r. reflexivity. }
  assert (H3 : forall stack, (List.length stack <= 3)%nat ->
                             nvmarker.get_trace_marker stack = []).
  { intros stack Hl. unfold nvmarker.get_trace_marker.
    replace (List.length stack - 3)%nat with 0%nat by lia. reflexivity. }
  split; [ exact H1 | ].
  split; [ apply H3; lia | ].
  split; [ exact H3 | ].
  unfold nvmarker.traceMarker. rewrite H1.
  apply eval_str. cbn [plain distinct_keys existsb forallb snd andb negb].
  rewrite strings_plain. reflexivity.
Qed.

(** The stack of a call made at line 12 of train.py from line 40 of
    run.py. *)
Lemma trace_marker_frames_witness :
  nvmarker.get_trace_marker
    [nvmarker.Build_FrameSummary "run.py" 40;
     nvmarker.Build_FrameSummary "train.py" 12;
     nvmarker.Build_FrameSummary "nvmarker.py" 154;
     nvmarker.Build_FrameSummary "nvmarker.py" 123;
     nvmarker.Build_FrameSummary "nvmarker.py" 112]
  = ["run.py:40"; "train.py:12"].
Proof.
  exact (proj1 (trace_marker_frames
                  [nvmarker.Build_FrameSummary "run.py" 40;
                   nvmarker.Build_FrameSummary "train.py" 12]
                  [nvmarker.Build_FrameSummary "nvmarker.py" 154;
                   nvmarker.Build_FrameSummary "nvmarker.py" 123;
                   nvmarker.Build_FrameSummary "nvmarker.py" 112]
                  eq_refl)).
Defined.

Lemma append_assoc' (a b c : string) : (a ++ b) ++ c = a ++ b ++ c.
Proof.
  induction a as [ | x a IH]; cbn; [ reflexivity | rewrite IH; reflexivity ].
Qed.

Lemma append_nil_r' (a : string) : a ++ "" = a.
Proof.
  induction a as [ | x a IH]; cbn; [ reflexivity | rewrite IH; reflexivity ].
Qed.

Lemma join_app (l1 l2 : list string) : join (l1 ++ l2) = join l1 ++ join l2.
Proof.
  unfold join. induction l1 as [ | s l1 IH]; cbn [app fold_right];
    [ reflexivity | ].
  rewrite IH, append_assoc'. reflexivity.
Qed.

Lemma func_stack_loop (l : list nvmarker.FrameInfo) :
  forall acc,
    fold_left
      (fun func_stack frame =>
         if existsb (String.eqb (nvmarker.co_name frame))
                    nvmarker.skipped_frames
         then func_stack
         else
           let frame_info :=
             match nvmarker.self_class frame with
             | Some cls_name => cls_name ++ "::"
             | None => ""
             end ++ nvmarker.co_name frame in
           "/" ++ frame_info ++ func_stack)
      l acc
    = join (map frame_info (rev (filter shown l))) ++ acc.
Proof.
  induction l as [ | x l IH]; intros acc; [ reflexivity | ].
  cbn [fold_left filter]. rewrite IH. unfold shown at 2.
  destruct (existsb (String.eqb (nvmarker.co_name x))
                    nvmarker.skipped_frames); cbn [negb].
  - reflexivity.
  - cbn [rev]. rewrite map_app, join_app.
    rewrite (append_assoc' _ (join (map frame_info [x])) acc). f_equal.
    unfold join, frame_info. cbn [map fold_right]. cbv zeta.
    rewrite append_nil_r'. cbn [append]. reflexivity.
Qed.

(** X19.  The function stack is made of the frames beyond the three
    newest, the oldest first, each written as /name or /Class::name;
    the frames named __call__, wrapper_func and <module> are left
    out. *)
Theorem func_stack_frames (ins_stack : list nvmarker.FrameInfo) :
  nvmarker.get_func_stack ins_stack
  = join (map frame_info (rev (filter shown (skipn 3 ins_stack)))).
Proof.
  unfold nvmarker.get_func_stack. rewrite func_stack_loop.
  apply append_nil_r'.
Qed.

(** X20.  [modMarker] raises AssertionError unless the function is
    forward and there is an argument; otherwise its text reads back as
    the dictionary of the module name and of the string representation
    of the first argument. *)
Theorem modMarker_forward_only
  (extra_repr : pyval -> string) (mod_name fn_name : string)
  (args : list pyval) :
  (fn_name <> "forward" \/ args = [] ->
   nvmarker.modMarker extra_repr mod_name fn_name args
   = Raise AssertionError) /\
  (forall a0 rest,
     fn_name = "forward" -> args = a0 :: rest ->
     exists text,
       nvmarker.modMarker extra_repr mod_name fn_name args = Ok text /\
       eval text
       = Ok (VDict [("mod", VStr mod_name);
                    ("strRepr", VStr (extra_repr a0))])).
Proof.
  unfold nvmarker.modMarker. split.
  - intros Hbad. destruct (String.eqb fn_name "forward") eqn:E.
    + destruct Hbad as [H | ->]; [ | reflexivity ].
      apply String.eqb_eq in E. contradiction.
    + reflexivity.
  - intros a0 rest -> ->. rewrite String.eqb_refl. cbn [assert bind].
    replace (0 <? Z.of_nat (List.length (a0 :: rest))) with true
      by (symmetry; apply Z.ltb_lt; cbn [List.length]; lia).
    cbn [assert bind]. eexists. split; [ reflexivity | ].
    apply eval_str. reflexivity.
Qed.

(** The module marker of a call of forward on an LSTM. *)
Lemma modMarker_forward_only_witness :
  exists text,
    nvmarker.modMarker (fun _ => "10, 20") "LSTM" "forward" [VObject "LSTM"]
    = Ok text /\
    eval text
    = Ok (VDict [("mod", VStr "LSTM"); ("strRepr", VStr "10, 20")]).
Proof.
  exact (proj2 (modMarker_forward_only (fun _ => "10, 20") "LSTM" "forward"
                  [VObject "LSTM"]) (VObject "LSTM") [] eq_refl eq_refl).
Defined.
